(** * Multimodel-AI-Bot backend: a shallow embedding of the request pipeline

  The development follows the backend sources:

  - [services/groq.service.ts]   : [generateGroqResponse]
  - [services/vision.service.ts] : [encodeImageToBase64], [analyzeImage]
  - [api/chat.routes.ts]         : [router.post('/message')]
  - [api/vision.routes.ts]       : [router.post('/analyze')]

  JavaScript values are an inductive type with the language's truthiness;
  exceptions, the filesystem, the console, the outbound inference call and
  the HTTP response are effects of a small state-and-exception monad over
  an explicit [World].  The inference endpoint is a collaborator outside
  the program: it is a section variable, so every theorem holds for all
  endpoints. *)

From Stdlib Require Import ZArith NArith List Ascii String Strings.Byte Lia.
From Stdlib Require Import Floats.PrimFloat.
From stdpp Require Import base option strings pretty gmap.

Set Warnings "-register-all,-inexact-float".
Local Open Scope string_scope.
Local Open Scope list_scope.

(** ** JavaScript values *)

Module Js.

(** Values as the handlers see them: [req.body] fields after JSON or
    multipart parsing, the completion object of the SDK, the values that
    flow into [res.json].  Numbers are IEEE-754 binary64, as in the
    language.  Objects are finite maps from property names to values. *)
Inductive JsValue : Type :=
| JUndefined
| JNull
| JBool (b : bool)
| JNumber (x : float)
| JString (s : string)
| JArray (items : list JsValue)
| JObject (props : gmap string JsValue).

(** ECMAScript [ToBoolean]: what [!v], [v || w] and [if (v)] test. *)
Definition toBoolean (v : JsValue) : bool :=
  match v with
  | JUndefined | JNull => false
  | JBool b => b
  | JNumber x => negb (PrimFloat.is_nan x || PrimFloat.is_zero x)
  | JString s => negb (String.eqb s "")
  | JArray _ | JObject _ => true
  end.

(** [a || b] *)
Definition orElse (a b : JsValue) : JsValue :=
  if toBoolean a then a else b.

(** [v === undefined || v === null]: where [?.] short-circuits and where a
    plain member access throws. *)
Definition nullish (v : JsValue) : bool :=
  match v with
  | JUndefined | JNull => true
  | _ => false
  end.

(** Reading property [k] of an object that is known to exist: a missing
    property reads as [undefined].  Only own properties are modelled: the
    names the sources read ([message], [prompt], [choices], [content]) are
    not builtin properties of arrays, strings, numbers or booleans. *)
Definition prop (o : gmap string JsValue) (k : string) : JsValue :=
  default JUndefined (o !! k).

(** Thrown values.  The sources only throw and catch [Error] objects: the
    SDK's API and transport errors, Node's filesystem errors, the engine's
    [TypeError], and the two [new Error(...)] of the services. *)
Record JsError : Type := mkError { err_name : string; err_message : string }.

Definition Error (msg : string) : JsError := mkError "Error" msg.
Definition TypeError (msg : string) : JsError := mkError "TypeError" msg.

(** [String.prototype.trim], on the ASCII white space and line
    terminators of ECMAScript (TAB, LF, VT, FF, CR, SP). *)
Definition isWhiteSpace (c : ascii) : bool :=
  let n := N_of_ascii c in
  ((9 <=? n) && (n <=? 13) || (n =? 32))%N.

Fixpoint trimStart (s : string) : string :=
  match s with
  | String c s' => if isWhiteSpace c then trimStart s' else s
  | EmptyString => EmptyString
  end.

Definition trim (s : string) : string :=
  String.rev (trimStart (String.rev (trimStart s))).

End Js.
Export Js.

(** ** Node's [Buffer.prototype.toString('base64')] *)

Module Base64.

Definition alphabet : list ascii :=
  list_ascii_of_string
    "ABCDEFGHIJKLMNOPQRSTUVWXYZabcdefghijklmnopqrstuvwxyz0123456789+/".

(** The character of a 6-bit group. *)
Definition digit (n : N) : ascii :=
  nth (N.to_nat n) alphabet "="%char.

Definition sextet1 (a : N) : N := N.shiftr a 2.
Definition sextet2 (a b : N) : N :=
  N.lor (N.shiftl (N.land a 3) 4) (N.shiftr b 4).
Definition sextet3 (b c : N) : N :=
  N.lor (N.shiftl (N.land b 15) 2) (N.shiftr c 6).
Definition sextet4 (c : N) : N := N.land c 63.

(** RFC 4648 section 4, with padding: three bytes become four characters;
    a final group of one or two bytes is padded with [=]. *)
Fixpoint encode (bs : list byte) : string :=
  match bs with
  | [] => ""
  | [a] =>
      let a := Byte.to_N a in
      String (digit (sextet1 a)) (String (digit (sextet2 a 0)) "==")
  | [a; b] =>
      let a := Byte.to_N a in
      let b := Byte.to_N b in
      String (digit (sextet1 a))
        (String (digit (sextet2 a b)) (String (digit (sextet3 b 0)) "="))
  | a :: b :: c :: rest =>
      let a := Byte.to_N a in
      let b := Byte.to_N b in
      let c := Byte.to_N c in
      String (digit (sextet1 a))
        (String (digit (sextet2 a b))
           (String (digit (sextet3 b c))
              (String (digit (sextet4 c)) (encode rest))))
  end.

(** The inverse transformation, RFC 4648 decoding of padded text.  It is
    not part of the program: it states what [encode] preserves. *)

Fixpoint index_of (c : ascii) (l : list ascii) (i : N) : option N :=
  match l with
  | [] => None
  | x :: l' => if Ascii.eqb c x then Some i else index_of c l' (N.succ i)
  end.

(** The 6-bit group a character stands for. *)
Definition value (c : ascii) : option N := index_of c alphabet 0.

Definition octet1 (v1 v2 : N) : N := N.lor (N.shiftl v1 2) (N.shiftr v2 4).
Definition octet2 (v2 v3 : N) : N :=
  N.lor (N.shiftl (N.land v2 15) 4) (N.shiftr v3 2).
Definition octet3 (v3 v4 : N) : N := N.lor (N.shiftl (N.land v3 3) 6) v4.

Definition is_pad (c : ascii) : bool := Ascii.eqb c "="%char.

Fixpoint decode_chars (cs : list ascii) : option (list byte) :=
  match cs with
  | [] => Some []
  | c1 :: c2 :: c3 :: c4 :: rest =>
      v1 ← value c1;
      v2 ← value c2;
      b1 ← Byte.of_N (octet1 v1 v2);
      if is_pad c4 then
        match rest with
        | [] =>
            if is_pad c3 then Some [b1]
            else
              v3 ← value c3;
              b2 ← Byte.of_N (octet2 v2 v3);
              Some [b1; b2]
        | _ :: _ => None
        end
      else
        v3 ← value c3;
        v4 ← value c4;
        b2 ← Byte.of_N (octet2 v2 v3);
        b3 ← Byte.of_N (octet3 v3 v4);
        tail ← decode_chars rest;
        Some (b1 :: b2 :: b3 :: tail)
  | _ => None
  end.

Definition decode (s : string) : option (list byte) :=
  decode_chars (list_ascii_of_string s).

(** Every byte, for the checks by enumeration below. *)
Definition all_bytes : list byte :=
  omap (fun n => Byte.of_N (N.of_nat n)) (seq 0 256).

(** What decoding needs of one byte, and of two neighbouring bytes. *)
Definition check1 (a : byte) : bool :=
  let n := Byte.to_N a in
  match value (digit (sextet1 n)), value (digit (sextet4 n)) with
  | Some v1, Some v4 => (v1 =? sextet1 n)%N && (v4 =? sextet4 n)%N
  | _, _ => false
  end
  && negb (is_pad (digit (sextet4 n)))
  && (N.lor (N.shiftl (N.shiftr n 4) 4) (N.land n 15) =? n)%N
  && (N.lor (N.shiftl (N.shiftr n 6) 6) (N.land n 63) =? n)%N.

Definition check2 (a b : byte) : bool :=
  let n := Byte.to_N a in
  let m := Byte.to_N b in
  match value (digit (sextet2 n m)), value (digit (sextet3 n m)) with
  | Some v2, Some v3 => (v2 =? sextet2 n m)%N && (v3 =? sextet3 n m)%N
  | _, _ => false
  end
  && negb (is_pad (digit (sextet3 n m)))
  && (octet1 (sextet1 n) (sextet2 n m) =? n)%N
  && (N.land (sextet2 n m) 15 =? N.shiftr m 4)%N
  && (N.shiftr (sextet3 n m) 2 =? N.land n 15)%N
  && (N.land (sextet3 n m) 3 =? N.shiftr m 6)%N.

End Base64.

(** ** The outbound chat-completion request *)

(** The argument object of [groq.chat.completions.create]. *)
Inductive ContentPart : Type :=
| TextPart (text : JsValue)          (* { type: 'text', text } *)
| ImageUrlPart (url : string).       (* { type: 'image_url', image_url: { url } } *)

Inductive MessageContent : Type :=
| Plain (c : JsValue)                (* content: prompt *)
| Parts (ps : list ContentPart).     (* content: [ ... ] *)

Record ChatMessage : Type := mkMessage
  { role : string; content : MessageContent }.

Record ChatParams : Type := mkParams
  { messages : list ChatMessage;
    model : string;
    temperature : float;
    max_tokens : Z }.

(** What awaiting the call yields: the promise resolves to a completion
    object or rejects with the SDK's error (transport, authentication, API
    status, ...). *)
Inductive Outcome : Type :=
| Resolve (completion : JsValue)
| Reject (e : JsError).

(** ** The world a request runs in *)

(** A file of the upload directory: its bytes, and whether the process may
    read it and remove it. *)
Record File : Type := mkFile
  { data : list byte; readable : bool; removable : bool }.

Record Response : Type := mkResponse
  { res_status : Z; res_body : JsValue }.

(** Observable effects, in the order they happen. *)
Inductive Event : Type :=
| ConsoleError (label : string) (e : JsError)   (* console.error(label, e) *)
| ReadFile (path : string)                      (* fs.readFileSync(path) *)
| Create (params : ChatParams)                  (* groq.chat.completions.create(params) *)
| Unlink (path : string)                        (* fs.unlink(path, cb) issued *)
| Respond (r : Response).                       (* res.status(..).json(..) *)

Record World : Type := mkWorld
  { files : gmap string File;     (* the filesystem, by path *)
    clock : string;               (* what new Date().toISOString() returns *)
    pending : list string;        (* fs.unlink requests not yet completed *)
    trace : list Event }.

Definition with_files (fs : gmap string File) (w : World) : World :=
  mkWorld fs (clock w) (pending w) (trace w).
Definition with_pending (ps : list string) (w : World) : World :=
  mkWorld (files w) (clock w) ps (trace w).
Definition with_trace (tr : list Event) (w : World) : World :=
  mkWorld (files w) (clock w) (pending w) tr.

(** ** State and exceptions *)

Inductive Result (A : Type) : Type :=
| Returned (a : A)
| Thrown (e : JsError).
Arguments Returned {A} a.
Arguments Thrown {A} e.

Definition M (A : Type) : Type := World -> Result A * World.

Definition ret {A} (a : A) : M A := fun w => (Returned a, w).

Definition throw {A} (e : JsError) : M A := fun w => (Thrown e, w).

Definition bind {A B} (c : M A) (k : A -> M B) : M B :=
  fun w =>
    match c w with
    | (Returned a, w') => k a w'
    | (Thrown e, w') => (Thrown e, w')
    end.

(** [try { body } catch (error) { handler }]: the effects of [body] up to
    the throw stay. *)
Definition try_catch {A} (body : M A) (handler : JsError -> M A) : M A :=
  fun w =>
    match body w with
    | (Returned a, w') => (Returned a, w')
    | (Thrown e, w') => handler e w'
    end.

Declare Scope js_scope.
Delimit Scope js_scope with js.
Notation "x <- c ;; k" := (bind c (fun x => k))
  (at level 100, c at next level, right associativity) : js_scope.
Notation "c ;; k" := (bind c (fun _ => k))
  (at level 100, right associativity) : js_scope.
Local Open Scope js_scope.

Definition emit (e : Event) : M unit :=
  fun w => (Returned tt, with_trace (trace w ++ [e]) w).

Definition console_error (label : string) (e : JsError) : M unit :=
  emit (ConsoleError label e).

(** [w +> ev]: the world [w] after the events [ev] happened, nothing else
    changed. *)
Notation "w +> ev" := (with_trace (trace w ++ ev) w)
  (at level 45, left associativity) : js_scope.

(** ** Node and Express primitives *)

Definition ENOENT (syscall path : string) : JsError :=
  Error ("ENOENT: no such file or directory, " ++ syscall ++ " '" ++ path ++ "'").
Definition EACCES (syscall path : string) : JsError :=
  Error ("EACCES: permission denied, " ++ syscall ++ " '" ++ path ++ "'").
Definition EPERM (syscall path : string) : JsError :=
  Error ("EPERM: operation not permitted, " ++ syscall ++ " '" ++ path ++ "'").

(** The error [fs.readFileSync path] throws in [w], if any. *)
Definition read_error (w : World) (path : string) : option JsError :=
  match files w !! path with
  | Some f => if readable f then None else Some (EACCES "open" path)
  | None => Some (ENOENT "open" path)
  end.

(** [fs.readFileSync(path)]: the whole content, or a thrown system error. *)
Definition readFileSync (path : string) : M (list byte) :=
  emit (ReadFile path) ;;
  fun w =>
    match files w !! path with
    | Some f => if readable f then (Returned (data f), w)
                else (Thrown (EACCES "open" path), w)
    | None => (Thrown (ENOENT "open" path), w)
    end.

(** [fs.unlink(path, callback)]: the request is handed to the runtime; the
    file goes and the callback runs when the event loop completes it
    ([complete_unlink] below). *)
Definition fs_unlink (path : string) : M unit :=
  emit (Unlink path) ;;
  fun w => (Returned tt, with_pending (pending w ++ [path]) w).

(** [new Date().toISOString()] *)
Definition new_Date_toISOString : M string :=
  fun w => (Returned (clock w), w).

(** [res.status(code).json(body)] *)
Definition res_status_json (code : Z) (body : JsValue) : M unit :=
  emit (Respond (mkResponse code body)).

(** [res.json(body)]: status 200. *)
Definition res_json (body : JsValue) : M unit :=
  res_status_json 200 body.

(** [{ error: msg }] *)
Definition error_body (msg : string) : JsValue :=
  JObject {[ "error" := JString msg ]}.

(** [v[0]] *)
Definition first (v : JsValue) : M JsValue :=
  match v with
  | JUndefined | JNull =>
      throw (TypeError "Cannot read properties of undefined (reading '0')")
  | JArray items => ret (hd JUndefined items)
  | JObject o => ret (prop o "0")
  | JString (String c _) => ret (JString (String c ""))
  | _ => ret JUndefined
  end.

(** [v.k] *)
Definition member (v : JsValue) (k : string) : M JsValue :=
  match v with
  | JUndefined | JNull =>
      throw (TypeError ("Cannot read properties of undefined (reading '" ++ k ++ "')"))
  | JObject o => ret (prop o k)
  | _ => ret JUndefined
  end.

(** [completion.choices[0]?.message?.content]: the two plain accesses throw
    on a nullish base, each [?.] ends the chain with [undefined]. *)
Definition first_choice_content (completion : JsValue) : M JsValue :=
  choices <- member completion "choices" ;;
  choice <- first choices ;;
  if nullish choice then ret JUndefined
  else
    msg <- member choice "message" ;;
    if nullish msg then ret JUndefined
    else member msg "content".

(** A parameter with a default value takes it when the argument is
    [undefined]. *)
Definition default_param (arg dflt : JsValue) : JsValue :=
  match arg with
  | JUndefined => dflt
  | _ => arg
  end.

(** ** The event loop's share of [fs.unlink] *)

(** The callback the vision route passes to [fs.unlink]:
    [(err) => { if (err) console.error('Failed to delete temp file:', err) }] *)
Definition unlink_callback (err : option JsError) : M unit :=
  match err with
  | Some e => console_error "Failed to delete temp file:" e
  | None => ret tt
  end.

(** Completion of one [fs.unlink] request: the file is removed when it is
    there and may be removed; the callback gets the error otherwise. *)
Definition complete_unlink (path : string) : M unit :=
  fun w =>
    match files w !! path with
    | Some f =>
        if removable f
        then unlink_callback None (with_files (delete path (files w)) w)
        else unlink_callback (Some (EPERM "unlink" path)) w
    | None => unlink_callback (Some (ENOENT "unlink" path)) w
    end.

Fixpoint complete_all (paths : list string) : M unit :=
  match paths with
  | [] => ret tt
  | p :: ps => complete_unlink p ;; complete_all ps
  end.

(** The world once every request issued so far has completed.  The callback
    issues no further request, so one pass empties the queue. *)
Definition settle (w : World) : World :=
  snd (complete_all (pending w) (with_pending [] w)).

(** ** The services and the routes *)

(** An Express request as the two handlers read it: [req.body] after
    [express.json()] or multer (own properties of the parsed object), and
    multer's [req.file] for the field [image]. *)
Record UploadedFile : Type := mkUpload
  { originalname : string; mimetype : string; path : string }.

Record Request : Type := mkRequest
  { req_body : gmap string JsValue; req_file : option UploadedFile }.

Section Backend.

(** The inference endpoint behind the SDK client [groq]. *)
Variable groq : ChatParams -> Outcome.

(** [await groq.chat.completions.create(params)] *)
Definition create (params : ChatParams) : M JsValue :=
  emit (Create params) ;;
  match groq params with
  | Resolve completion => ret completion
  | Reject e => throw e
  end.

(** groq.service.ts *)

Definition chat_params (prompt : JsValue) : ChatParams :=
  {| messages := [ {| role := "user"; content := Plain prompt |} ];
     model := "llama-3.3-70b-versatile";
     temperature := 0.7;
     max_tokens := 1024 |}.

Definition generateGroqResponse (prompt : JsValue) : M JsValue :=
  try_catch
    (completion <- create (chat_params prompt) ;;
     c <- first_choice_content completion ;;
     ret (orElse c (JString "No response generated.")))
    (fun error =>
       console_error "❌ Groq API Error:" error ;;
       throw (Error "Failed to generate AI response")).

(** vision.service.ts *)

Definition encodeImageToBase64 (filePath : string) : M string :=
  imageFile <- readFileSync filePath ;;
  ret (Base64.encode imageFile).

Definition vision_params (imageBase64 : string) (prompt : JsValue) : ChatParams :=
  {| messages :=
       [ {| role := "user";
            content :=
              Parts [ TextPart prompt;
                      ImageUrlPart ("data:image/jpeg;base64," ++ imageBase64) ] |} ];
     model := "meta-llama/llama-4-scout-17b-16e-instruct";
     temperature := 0.7;
     max_tokens := 1024 |}.

Definition analyzeImage (imageBase64 : string) (prompt : JsValue) : M JsValue :=
  let prompt := default_param prompt (JString "What's in this image?") in
  try_catch
    (completion <- create (vision_params imageBase64 prompt) ;;
     c <- first_choice_content completion ;;
     ret (orElse c (JString "No analysis generated.")))
    (fun error =>
       console_error "❌ Vision API Error:" error ;;
       throw (Error "Failed to analyze image")).

(** chat.routes.ts: [router.post('/message', ...)] *)
Definition post_message (req : Request) : M unit :=
  try_catch
    (let message := prop (req_body req) "message" in
     if negb (toBoolean message)
     then res_status_json 400 (error_body "Message is required")
     else
       reply <- generateGroqResponse message ;;
       timestamp <- new_Date_toISOString ;;
       res_json (JObject {[ "reply" := reply; "timestamp" := JString timestamp ]}))
    (fun error =>
       console_error "Chat error:" error ;;
       res_status_json 500 (error_body "Failed to process your message")).

(** vision.routes.ts: [router.post('/analyze', upload.single('image'), ...)] *)
Definition post_analyze (req : Request) : M unit :=
  try_catch
    (match req_file req with
     | None => res_status_json 400 (error_body "No image uploaded")
     | Some file =>
         let prompt :=
           orElse (prop (req_body req) "prompt") (JString "What's in this image?") in
         imageBase64 <- encodeImageToBase64 (path file) ;;
         analysis <- analyzeImage imageBase64 prompt ;;
         fs_unlink (path file) ;;
         timestamp <- new_Date_toISOString ;;
         res_json
           (JObject {[ "analysis" := analysis; "timestamp" := JString timestamp ]})
     end)
    (fun error =>
       console_error "Vision route error:" error ;;
       res_status_json 500 (error_body "Failed to analyze image")).

(** A request from arrival to quiescence: the handler, then whatever it left
    with the event loop. *)
Definition serve (handler : Request -> M unit) (req : Request) (w : World) : World :=
  settle (snd (handler req w)).

End Backend.

(** What a run added to the trace. *)
Definition since (w w' : World) : list Event :=
  drop (length (trace w)) (trace w').

Definition responses (tr : list Event) : list Response :=
  omap (fun e => match e with Respond r => Some r | _ => None end) tr.

Definition creates (tr : list Event) : list ChatParams :=
  omap (fun e => match e with Create p => Some p | _ => None end) tr.

Definition reads (tr : list Event) : list string :=
  omap (fun e => match e with ReadFile p => Some p | _ => None end) tr.

Definition unlinks (tr : list Event) : list string :=
  omap (fun e => match e with Unlink p => Some p | _ => None end) tr.

(** The parts of an outbound request the properties below look at. *)
Definition part_urls (c : MessageContent) : list string :=
  match c with
  | Plain _ => []
  | Parts ps =>
      omap (fun p => match p with ImageUrlPart u => Some u | _ => None end) ps
  end.

Definition part_texts (c : MessageContent) : list JsValue :=
  match c with
  | Plain t => [t]
  | Parts ps =>
      omap (fun p => match p with TextPart t => Some t | _ => None end) ps
  end.

(** Every image reference of a request, and every prompt text. *)
Definition image_urls (p : ChatParams) : list string :=
  flat_map (fun m => part_urls (content m)) (messages p).

Definition prompts (p : ChatParams) : list JsValue :=
  flat_map (fun m => part_texts (content m)) (messages p).

(** A completion without candidate content: an empty [choices] list, or a
    first candidate whose [message] or whose [message.content] is missing
    ([undefined] or [null]). *)
Inductive no_candidate_content : JsValue -> Prop :=
| no_choices (o : gmap string JsValue) :
    prop o "choices" = JArray [] ->
    no_candidate_content (JObject o)
| no_message (o ch : gmap string JsValue) (rest : list JsValue) :
    prop o "choices" = JArray (JObject ch :: rest) ->
    nullish (prop ch "message") = true ->
    no_candidate_content (JObject o)
| no_content (o ch m : gmap string JsValue) (rest : list JsValue) :
    prop o "choices" = JArray (JObject ch :: rest) ->
    prop ch "message" = JObject m ->
    nullish (prop m "content") = true ->
    no_candidate_content (JObject o).

(** A completion whose first candidate has content [c]. *)
Definition completion_with (c : JsValue) : JsValue :=
  JObject {[ "choices" :=
    JArray [ JObject {[ "message" := JObject {[ "content" := c ]} ]} ] ]}.

(** The client's test for a prompt left blank, from the chat window's
    [input.trim() || 'What\'s in this image?']. *)
Definition blank (s : string) : bool := String.eqb (trim s) "".

(** The fixed texts of the two pipelines. *)
Definition default_prompt : JsValue := JString "What's in this image?".
Definition chat_failure : Response :=
  mkResponse 500 (error_body "Failed to process your message").
Definition vision_failure : Response :=
  mkResponse 500 (error_body "Failed to analyze image").
Definition message_required : Response :=
  mkResponse 400 (error_body "Message is required").
Definition no_image_uploaded : Response :=
  mkResponse 400 (error_body "No image uploaded").

(** ** Sample worlds, endpoints and requests *)

Module Sample.

Definition upload : UploadedFile :=
  mkUpload "pixel.png" "image/png" "uploads/3f2a".

(** The first bytes of a PNG file. *)
Definition png : list byte := [x89; x50; x4e; x47; x0d; x0a; x1a; x0a]%byte.

Definition world : World :=
  mkWorld {[ "uploads/3f2a" := mkFile png true true ]}
    "2025-01-01T00:00:00.000Z" [] [].

Definition empty_world : World :=
  mkWorld ∅ "2025-01-01T00:00:00.000Z" [] [].

Definition transport_error : JsError :=
  mkError "APIConnectionError" "Connection error.".

Definition failing : ChatParams -> Outcome := fun _ => Reject transport_error.

Definition answering (c : JsValue) : ChatParams -> Outcome :=
  fun _ => Resolve (completion_with c).

Definition silent : ChatParams -> Outcome :=
  fun _ => Resolve (JObject {[ "choices" := JArray [] ]}).

Definition text_request (message : JsValue) : Request :=
  mkRequest {[ "message" := message ]} None.

Definition empty_request : Request := mkRequest ∅ None.

Definition vision_request (prompt : JsValue) : Request :=
  mkRequest {[ "prompt" := prompt ]} (Some upload).

Definition vision_request_no_prompt : Request := mkRequest ∅ (Some upload).

End Sample.

(** A completion whose first candidate is an object with a message object:
    the content the clients read is that message's [content], whatever
    else the completion, the candidate and the further candidates hold. *)
Inductive first_candidate_content : JsValue -> JsValue -> Prop :=
| first_content (o ch m : gmap string JsValue) (rest : list JsValue) :
    prop o "choices" = JArray (JObject ch :: rest) ->
    prop ch "message" = JObject m ->
    first_candidate_content (JObject o) (prop m "content").

(** A completion without a [choices] list to index: the completion itself
    is missing, or its [choices] is [undefined] or [null]. *)
Definition no_choices_list (completion : JsValue) : bool :=
  match completion with
  | JUndefined | JNull => true
  | JObject o => nullish (prop o "choices")
  | _ => false
  end.

(** ** Start-up *)

Module Startup.

(** [process.env.NAME]: a string, or [undefined] when unset. *)
Definition env_var (env : gmap string string) (name : string) : JsValue :=
  match env !! name with
  | Some v => JString v
  | None => JUndefined
  end.

(** The client object [new Groq({ apiKey })]. *)
Record Groq : Type := mkGroq { apiKey : JsValue }.

(** The top of groq.service.ts and of vision.service.ts: the key check and
    the construction of the client, run when the module is first imported. *)
Definition load_service (env : gmap string string) : Result Groq :=
  if negb (toBoolean (env_var env "GROQ_API_KEY"))
  then Thrown (Error "GROQ_API_KEY environment variable is not set")
  else Returned (mkGroq (env_var env "GROQ_API_KEY")).

(** [dotenv.config({ path })]: the variables of the file, when there is
    one, are added to [process.env]; a variable already set keeps its
    value. *)
Definition dotenv_config (file : option (gmap string string))
    (env : gmap string string) : gmap string string :=
  match file with
  | Some vars => env ∪ vars
  | None => env
  end.

(** [a === 'text'] *)
Definition is_string (v : JsValue) (s : string) : bool :=
  match v with
  | JString s' => String.eqb s' s
  | _ => false
  end.

(** What index.ts configures before [app.listen]. *)
Record Server : Type := mkServer
  { chat_client : Groq;           (* the [groq] of groq.service.ts *)
    vision_client : Groq;         (* the [groq] of vision.service.ts *)
    PORT : JsValue;
    cors_origin : JsValue;
    cors_credentials : bool }.

(** index.ts, from the first import to the configuration of the app.  The
    imports come first: chat.routes imports groq.service and vision.routes
    imports vision.service, so both key checks run on the environment the
    process was started with; [dotenv.config] runs after them. *)
Definition index (file : option (gmap string string))
    (env : gmap string string) : Result Server :=
  match load_service env with
  | Thrown e => Thrown e
  | Returned chat =>
      match load_service env with
      | Thrown e => Thrown e
      | Returned vision =>
          let env := dotenv_config file env in
          Returned
            {| chat_client := chat;
               vision_client := vision;
               PORT := orElse (env_var env "PORT") (JNumber 5000);
               cors_origin :=
                 if is_string (env_var env "NODE_ENV") "production"
                 then env_var env "FRONTEND_URL"
                 else JArray [JString "http://localhost:5173";
                              JString "http://localhost:3000"];
               cors_credentials := true |}
      end
  end.

End Startup.

(** ** The chat window *)

(** The [App] component: its state, its handlers and the requests it
    sends.  A handler is a function of the state it runs in; the
    asynchronous [sendMessage] is split where it first awaits the network
    ([submit]) and where the answer, or the failure, arrives ([complete]). *)
Module Chat.

Inductive Sender : Type := user | bot.

Record Message : Type := mkMsg
  { msg_id : string;
    msg_text : JsValue;
    msg_sender : Sender;
    msg_timestamp : Z;
    msg_image : option string;            (* image?: string *)
    msg_isImageAnalysis : option bool }.  (* isImageAnalysis?: boolean *)

(** The [useState] cells. *)
Record UI : Type := mkUI
  { messages : list Message;
    input : string;
    loading : bool;
    darkMode : bool;
    sidebarOpen : bool;
    selectedImage : option string;        (* string | null *)
    imagePreview : option string }.

(** What the handlers reach outside React: [localStorage] and the class
    list of [document.documentElement]. *)
Record Page : Type := mkPage
  { localStorage : gmap string string;
    classList : gset string }.

(** The state of a freshly rendered component. *)
Definition initial : UI := mkUI [] "" false false false None None.

(** Truthiness of a [string | null]. *)
Definition truthy (v : option string) : bool :=
  match v with
  | Some s => negb (String.eqb s "")
  | None => false
  end.

(** [a || b] on strings. *)
Definition str_or (a b : string) : string :=
  if String.eqb a "" then b else a.

(** The theme effect run once after the first render. *)
Definition loadTheme (st : UI * Page) : UI * Page :=
  let (ui, page) := st in
  match localStorage page !! "theme" with
  | Some savedTheme =>
      if String.eqb savedTheme "dark"
      then (mkUI (messages ui) (input ui) (loading ui) true (sidebarOpen ui)
              (selectedImage ui) (imagePreview ui),
            mkPage (localStorage page) ({[ "dark" ]} ∪ classList page))
      else st
  | None => st
  end.

Definition toggleDarkMode (st : UI * Page) : UI * Page :=
  let (ui, page) := st in
  let ui' :=
    mkUI (messages ui) (input ui) (loading ui) (negb (darkMode ui))
      (sidebarOpen ui) (selectedImage ui) (imagePreview ui) in
  if negb (darkMode ui)
  then (ui', mkPage (<[ "theme" := "dark" ]> (localStorage page))
               ({[ "dark" ]} ∪ classList page))
  else (ui', mkPage (<[ "theme" := "light" ]> (localStorage page))
               (classList page ∖ {[ "dark" ]})).

(** [handleImageSelect]: nothing without a file; otherwise both cells get
    [reader.result] when the read has ended. *)
Definition handleImageSelect (file : option (option string)) (ui : UI) : UI :=
  match file with
  | Some result =>
      mkUI (messages ui) (input ui) (loading ui) (darkMode ui)
        (sidebarOpen ui) result result
  | None => ui
  end.

Definition clearSelectedImage (ui : UI) : UI :=
  mkUI (messages ui) (input ui) (loading ui) (darkMode ui) (sidebarOpen ui)
    None None.

Definition clearChat (ui : UI) : UI :=
  let ui := clearSelectedImage
              (mkUI [] (input ui) (loading ui) (darkMode ui) (sidebarOpen ui)
                 (selectedImage ui) (imagePreview ui)) in
  mkUI (messages ui) (input ui) (loading ui) (darkMode ui) false
    (selectedImage ui) (imagePreview ui).

Definition newChat (ui : UI) : UI :=
  clearSelectedImage
    (mkUI [] (input ui) (loading ui) (darkMode ui) (sidebarOpen ui)
       (selectedImage ui) (imagePreview ui)).

(** [setSidebarOpen(value)]: the menu button, the overlay, the close
    button, and the last step of [exportChat]. *)
Definition setSidebarOpen (value : bool) (ui : UI) : UI :=
  mkUI (messages ui) (input ui) (loading ui) (darkMode ui) value
    (selectedImage ui) (imagePreview ui).

(** [onChange={(e) => setInput(e.target.value)}] *)
Definition setInput (value : string) (ui : UI) : UI :=
  mkUI (messages ui) value (loading ui) (darkMode ui) (sidebarOpen ui)
    (selectedImage ui) (imagePreview ui).

(** *** Sending *)


    (* body: formData *)


(** The clock readings of one [sendMessage]: [Date.now()] and [new Date()]
    for the user's message, then for the answer. *)
Record Times : Type := mkTimes
  { sent_id : Z; sent_at : Z; answered_id : Z; answered_at : Z }.

(** [v.k], for the parsed response. *)
Definition read (v : JsValue) (k : string) : Result JsValue :=
  match v with
  | JUndefined | JNull =>
      Thrown (TypeError ("Cannot read properties of undefined (reading '" ++ k ++ "')"))
  | JObject o => Returned (prop o k)
  | _ => Returned JUndefined
  end.

(** [data.analysis || data.reply || 'No response'] *)
Definition answer_text (data : JsValue) : Result JsValue :=
  match read data "analysis" with
  | Thrown e => Thrown e
  | Returned analysis =>
      if toBoolean analysis then Returned analysis
      else
        match read data "reply" with
        | Thrown e => Thrown e
        | Returned reply => Returned (orElse reply (JString "No response"))
        end
  end.

Section App.

(** [import.meta.env.VITE_API_URL || ''] *)
Variable API_BASE_URL : string.

(** The guard of [sendMessage]:
    [(!input.trim() && !selectedImage) || loading]. *)
Definition blocked (ui : UI) : bool :=
  String.eqb (trim (input ui)) "" && negb (truthy (selectedImage ui))
  || loading ui.

Definition userMessage (t : Times) (ui : UI) : Message :=
  {| msg_id := pretty (sent_id t);
     msg_text :=
       JString (str_or (trim (input ui))
                  (if truthy (selectedImage ui) then "[Image uploaded]" else ""));
     msg_sender := user;
     msg_timestamp := sent_at t;
     msg_image := if truthy (imagePreview ui) then imagePreview ui else None;
     msg_isImageAnalysis := None |}.

Definition botMessage (t : Times) (ui : UI) (text : JsValue) : Message :=
  {| msg_id := pretty (answered_id t + 1)%Z;
     msg_text := text;
     msg_sender := bot;
     msg_timestamp := answered_at t;
     msg_image := None;
     msg_isImageAnalysis := Some (truthy (selectedImage ui)) |}.

Definition errorMessage (t : Times) : Message :=
  {| msg_id := pretty (answered_id t + 1)%Z;
     msg_text := JString "Sorry, I encountered an error. Please try again.";
     msg_sender := bot;
     msg_timestamp := answered_at t;
     msg_image := None;
     msg_isImageAnalysis := None |}.




(** Up to the first [await]: the user's message is appended, the input
    emptied, [loading] set. *)
Definition submit (t : Times) (ui : UI) : UI :=
  mkUI (messages ui ++ [userMessage t ui]) "" true (darkMode ui)
    (sidebarOpen ui) (selectedImage ui) (imagePreview ui).

(** From the arrival of the outcome to the end of [finally], in the state
    [now]; [ui] is the state the handler was created in.  The second
    component is what [console.error] was given. *)
Definition complete (t : Times) (ui : UI) (outcome : Result JsValue)
    (now : UI) : UI * list JsError :=
  let failed e :=
    (mkUI (messages now ++ [errorMessage t]) (input now) false (darkMode now)
       (sidebarOpen now) (selectedImage now) (imagePreview now), [e]) in
  match outcome with
  | Returned data =>
      match answer_text data with
      | Returned text =>
          (mkUI (messages now ++ [botMessage t ui text]) (input now) false
             (darkMode now) (sidebarOpen now) None None, [])
      | Thrown e => failed e
      end
  | Thrown e => failed e
  end.


End App.

(** *** The component as a transition system *)

(** The component, the page, and the [sendMessage] calls that await the
    network, each with the state it was created in. *)
Record Browser : Type := mkBrowser
  { ui : UI; page : Page; in_flight : list UI }.

Inductive Action : Type :=
| Typed (value : string)
| ImageSelected (file : option (option string))
| ImageCleared
| ChatCleared
| NewChat
| ThemeToggled
| SidebarSet (value : bool)
| Submitted (t : Times)
| Answered (t : Times) (outcome : Result JsValue).

Definition act (a : Action) (b : Browser) : Browser :=
  match a with
  | Typed value => mkBrowser (setInput value (ui b)) (page b) (in_flight b)
  | ImageSelected file =>
      mkBrowser (handleImageSelect file (ui b)) (page b) (in_flight b)
  | ImageCleared => mkBrowser (clearSelectedImage (ui b)) (page b) (in_flight b)
  | ChatCleared => mkBrowser (clearChat (ui b)) (page b) (in_flight b)
  | NewChat => mkBrowser (newChat (ui b)) (page b) (in_flight b)
  | ThemeToggled =>
      let (ui', page') := toggleDarkMode (ui b, page b) in
      mkBrowser ui' page' (in_flight b)
  | SidebarSet value =>
      mkBrowser (setSidebarOpen value (ui b)) (page b) (in_flight b)
  | Submitted t =>
      if blocked (ui b) then b
      else mkBrowser (submit t (ui b)) (page b) (in_flight b ++ [ui b])
  | Answered t outcome =>
      match in_flight b with
      | created :: rest =>
          mkBrowser (fst (complete t created outcome (ui b))) (page b) rest
      | [] => b
      end
  end.

(** A page load: a document without the [dark] class, the stored theme
    applied. *)
Definition load (storage : gmap string string) : Browser :=
  let (ui, page) := loadTheme (initial, mkPage storage ∅) in
  mkBrowser ui page [].

Inductive reachable : Browser -> Prop :=
| reach_load (storage : gmap string string) : reachable (load storage)
| reach_act (a : Action) (b : Browser) : reachable b -> reachable (act a b).

End Chat.




(** * Properties *)

(** ** Test vectors *)

(** RFC 4648 section 10. *)
Example base64_foobar :
  Base64.encode [x66; x6f; x6f; x62; x61; x72]%byte = "Zm9vYmFy".
Proof. reflexivity. Qed.

Example base64_fooba :
  Base64.encode [x66; x6f; x6f; x62; x61]%byte = "Zm9vYmE=".
Proof. reflexivity. Qed.

Example base64_f : Base64.encode [x66]%byte = "Zg==".
Proof. reflexivity. Qed.

Example toBoolean_zero : toBoolean (JNumber 0%float) = false.
Proof. reflexivity. Qed.

Example toBoolean_negative_zero : toBoolean (JNumber (-0)%float) = false.
Proof. reflexivity. Qed.

Example toBoolean_nan : toBoolean (JNumber nan) = false.
Proof. reflexivity. Qed.

Example trim_spaces : trim "  a b  " = "a b" /\ trim " " = "".
Proof. split; reflexivity. Qed.

(** ** Base64 loses nothing *)

Module Base64Facts.
Import Base64.

Lemma all_bytes_complete (b : byte) : In b all_bytes.
Proof.
  assert (H : existsb (Byte.eqb b) all_bytes = true)
    by (destruct b; vm_compute; reflexivity).
  apply existsb_exists in H as (x & Hin & Heq).
  apply Byte.byte_dec_bl in Heq. now subst.
Qed.

Lemma check1_all : forallb check1 all_bytes = true.
Proof. vm_compute. reflexivity. Qed.

Lemma check2_all :
  forallb (fun a => forallb (check2 a) all_bytes) all_bytes = true.
Proof. vm_compute. reflexivity. Qed.

Lemma check1_holds (a : byte) : check1 a = true.
Proof.
  pose proof check1_all as H. rewrite forallb_forall in H.
  apply H, all_bytes_complete.
Qed.

Lemma check2_holds (a b : byte) : check2 a b = true.
Proof.
  pose proof check2_all as H. rewrite forallb_forall in H.
  specialize (H a (all_bytes_complete a)). rewrite forallb_forall in H.
  apply H, all_bytes_complete.
Qed.


Lemma single_facts (a : byte) :
  let n := Byte.to_N a in
  value (digit (sextet1 n)) = Some (sextet1 n) /\
  value (digit (sextet4 n)) = Some (sextet4 n) /\
  is_pad (digit (sextet4 n)) = false /\
  N.lor (N.shiftl (N.shiftr n 4) 4) (N.land n 15) = n /\
  N.lor (N.shiftl (N.shiftr n 6) 6) (N.land n 63) = n.
Proof.
  intros n. pose proof (check1_holds a) as H. unfold check1 in H. fold n in H.
  rewrite !andb_true_iff in H. destruct H as [[[Hv Hp] H4] H6].
  destruct (value (digit (sextet1 n))) as [v1|]; [|discriminate].
  destruct (value (digit (sextet4 n))) as [v4|]; [|discriminate].
  rewrite andb_true_iff in Hv. destruct Hv as [Hv1 Hv4].
  apply N.eqb_eq in Hv1, Hv4, H4, H6. apply negb_true_iff in Hp.
  subst v1 v4. auto.
Qed.

Lemma pair_facts (a b : byte) :
  let n := Byte.to_N a in
  let m := Byte.to_N b in
  value (digit (sextet2 n m)) = Some (sextet2 n m) /\
  value (digit (sextet3 n m)) = Some (sextet3 n m) /\
  is_pad (digit (sextet3 n m)) = false /\
  octet1 (sextet1 n) (sextet2 n m) = n /\
  N.land (sextet2 n m) 15 = N.shiftr m 4 /\
  N.shiftr (sextet3 n m) 2 = N.land n 15 /\
  N.land (sextet3 n m) 3 = N.shiftr m 6.
Proof.
  intros n m. pose proof (check2_holds a b) as H. unfold check2 in H.
  fold n m in H. rewrite !andb_true_iff in H.
  destruct H as [[[[[Hv Hp] H1] H2] H3] H4].
  destruct (value (digit (sextet2 n m))) as [v2|]; [|discriminate].
  destruct (value (digit (sextet3 n m))) as [v3|]; [|discriminate].
  rewrite andb_true_iff in Hv. destruct Hv as [Hv2 Hv3].
  apply N.eqb_eq in Hv2, Hv3, H1, H2, H3, H4. apply negb_true_iff in Hp.
  subst v2 v3. auto 10.
Qed.

(** The middle and the last byte of a group, from its sextets. *)
Lemma octet2_sextets (a b c : byte) :
  octet2 (sextet2 (Byte.to_N a) (Byte.to_N b))
         (sextet3 (Byte.to_N b) (Byte.to_N c)) = Byte.to_N b.
Proof.
  unfold octet2.
  destruct (pair_facts a b) as (_ & _ & _ & _ & -> & _).
  destruct (pair_facts b c) as (_ & _ & _ & _ & _ & -> & _).
  now destruct (single_facts b) as (_ & _ & _ & -> & _).
Qed.

Lemma octet3_sextets (b c : byte) :
  octet3 (sextet3 (Byte.to_N b) (Byte.to_N c)) (sextet4 (Byte.to_N c)) =
  Byte.to_N c.
Proof.
  unfold octet3, sextet4.
  destruct (pair_facts b c) as (_ & _ & _ & _ & _ & _ & ->).
  now destruct (single_facts c) as (_ & _ & _ & _ & ->).
Qed.

(** Evaluating the decoder on characters the encoder produced. *)
Ltac decode_step :=
  cbn [mbind option_bind];
  repeat match goal with
    | H : _ = _ |- _ => rewrite H; cbn [mbind option_bind]
    end.

Lemma decode_group (a b c : byte) (rest : list ascii) :
  decode_chars
    (digit (sextet1 (Byte.to_N a))
     :: digit (sextet2 (Byte.to_N a) (Byte.to_N b))
     :: digit (sextet3 (Byte.to_N b) (Byte.to_N c))
     :: digit (sextet4 (Byte.to_N c)) :: rest) =
  (tail ← decode_chars rest; Some (a :: b :: c :: tail)).
Proof.
  cbn [decode_chars].
  destruct (single_facts a) as (Ha1 & _).
  destruct (pair_facts a b) as (Hab2 & _ & _ & Ho1 & _).
  destruct (pair_facts b c) as (_ & Hbc3 & _).
  destruct (single_facts c) as (_ & Hc4 & Hpad & _).
  pose proof (octet2_sextets a b c) as Ho2.
  pose proof (octet3_sextets b c) as Ho3.
  pose proof (Byte.of_to_N a) as Hba.
  pose proof (Byte.of_to_N b) as Hbb.
  pose proof (Byte.of_to_N c) as Hbc.
  decode_step. reflexivity.
Qed.

Lemma decode_last_one (a : byte) :
  decode_chars
    [digit (sextet1 (Byte.to_N a)); digit (sextet2 (Byte.to_N a) 0);
     "="%char; "="%char] = Some [a].
Proof.
  cbn [decode_chars].
  destruct (single_facts a) as (Ha1 & _).
  destruct (pair_facts a x00) as (Hab2 & _ & _ & Ho1 & _).
  change (Byte.to_N x00) with 0%N in Hab2, Ho1.
  pose proof (Byte.of_to_N a) as Hba.
  decode_step. reflexivity.
Qed.

Lemma decode_last_two (a b : byte) :
  decode_chars
    [digit (sextet1 (Byte.to_N a));
     digit (sextet2 (Byte.to_N a) (Byte.to_N b));
     digit (sextet3 (Byte.to_N b) 0); "="%char] = Some [a; b].
Proof.
  cbn [decode_chars].
  destruct (single_facts a) as (Ha1 & _).
  destruct (pair_facts a b) as (Hab2 & _ & _ & Ho1 & _).
  destruct (pair_facts b x00) as (_ & Hv & Hp & _).
  pose proof (octet2_sextets a b x00) as Ho2.
  change (Byte.to_N x00) with 0%N in Hv, Hp, Ho2.
  pose proof (Byte.of_to_N a) as Hba.
  pose proof (Byte.of_to_N b) as Hbb.
  change (is_pad "="%char) with true.
  decode_step. reflexivity.
Qed.

Lemma decode_encode_bounded (n : nat) (bs : list byte) :
  length bs < n -> decode (encode bs) = Some bs.
Proof.
  revert bs. induction n as [|n IH]; intros bs Hn; [lia|].
  destruct bs as [|a [|b [|c rest]]].
  - reflexivity.
  - apply decode_last_one.
  - apply decode_last_two.
  - unfold decode. cbn [encode list_ascii_of_string].
    rewrite decode_group. fold (decode (encode rest)).
    rewrite IH by (cbn [length] in Hn; lia). reflexivity.
Qed.

(** Decoding the encoding gives the bytes back: [encode] loses nothing. *)
Lemma decode_encode (bs : list byte) : decode (encode bs) = Some bs.
Proof. apply (decode_encode_bounded (S (length bs))). lia. Qed.

Lemma encode_injective (bs bs' : list byte) :
  encode bs = encode bs' -> bs = bs'.
Proof.
  intros H. apply (f_equal decode) in H.
  rewrite !decode_encode in H. congruence.
Qed.

End Base64Facts.


(** ** Truthiness *)

Lemma toBoolean_false_iff (v : JsValue) :
  toBoolean v = false <->
  v = JUndefined \/ v = JNull \/ v = JBool false \/ v = JString "" \/
  exists x, v = JNumber x /\ (PrimFloat.is_nan x || PrimFloat.is_zero x) = true.
Proof.
  split.
  - destruct v as [| |b|x|s|items|o]; simpl; intros H; try discriminate; auto.
    + destruct b; [discriminate | auto].
    + right; right; right; right. exists x. split; [reflexivity|].
      now apply negb_false_iff in H.
    + apply negb_false_iff, String.eqb_eq in H. subst; auto.
  - intros [-> | [-> | [-> | [-> | (x & -> & Hx)]]]]; simpl; try reflexivity.
    now rewrite Hx.
Qed.

Lemma toBoolean_string (s : string) :
  toBoolean (JString s) = true <-> s <> "".
Proof.
  simpl. rewrite negb_true_iff. split.
  - intros H ->. discriminate.
  - intros H. destruct (String.eqb_spec s ""); congruence.
Qed.

Lemma truthy_not_empty (v : JsValue) :
  toBoolean v = true -> v <> JString "".
Proof. intros H ->. discriminate. Qed.

(** [c || 'text'] with a non-empty text is truthy whatever [c] is. *)
Lemma or_placeholder_truthy (c : JsValue) (s : string) :
  s <> "" -> toBoolean (orElse c (JString s)) = true.
Proof.
  intros Hs. unfold orElse. destruct (toBoolean c) eqn:E; [exact E|].
  now apply toBoolean_string.
Qed.

Lemma or_truthy (a b : JsValue) : toBoolean a = true -> orElse a b = a.
Proof. unfold orElse. now intros ->. Qed.

Lemma or_falsy (a b : JsValue) : toBoolean a = false -> orElse a b = b.
Proof. unfold orElse. now intros ->. Qed.

Lemma nullish_falsy (v : JsValue) : nullish v = true -> toBoolean v = false.
Proof. destruct v; simpl; congruence. Qed.

(** ** Traces *)

Lemma with_trace_trace (w : World) : with_trace (trace w) w = w.
Proof. now destruct w. Qed.

Lemma since_extend (w w' : World) (ev : list Event) :
  trace w' = trace w ++ ev -> since w w' = ev.
Proof. unfold since. intros ->. apply drop_app_length. Qed.

Lemma since_with_trace (w : World) (ev : list Event) :
  since w (with_trace (trace w ++ ev) w) = ev.
Proof. now apply since_extend. Qed.

(** ** Reading the first candidate *)

(** Property reads touch nothing: the outcome is a function of the
    completion alone. *)
Lemma first_choice_content_pure (completion : JsValue) :
  exists r, forall w : World, first_choice_content completion w = (r, w).
Proof.
  unfold first_choice_content, bind, member, first, ret, throw.
  destruct completion as [| |b|x|s|items|o]; try (eexists; reflexivity).
  destruct (prop o "choices") as [| |b|x|s|items|chs];
    try (eexists; reflexivity).
  - destruct s; eexists; reflexivity.
  - destruct (hd JUndefined items) as [| |b|x|s|its|ch];
      try (eexists; reflexivity).
    destruct (prop ch "message") as [| |b|x|s|its|m]; eexists; reflexivity.
  - destruct (prop chs "0") as [| |b|x|s|its|ch]; try (eexists; reflexivity).
    destruct (prop ch "message") as [| |b|x|s|its|m]; eexists; reflexivity.
Qed.

Lemma first_choice_content_no_content (completion : JsValue) (w : World) :
  no_candidate_content completion ->
  exists c, first_choice_content completion w = (Returned c, w) /\
            nullish c = true.
Proof.
  intros H. unfold first_choice_content, bind, member, first, ret.
  destruct H as [o H | o ch rest H Hm | o ch m rest H Hm Hc].
  - rewrite H. simpl. exists JUndefined. auto.
  - rewrite H. simpl. destruct (prop ch "message"); try discriminate;
      exists JUndefined; auto.
  - rewrite H. simpl. rewrite Hm. simpl. exists (prop m "content"). auto.
Qed.

Lemma first_choice_content_with (c : JsValue) (w : World) :
  first_choice_content (completion_with c) w = (Returned c, w).
Proof. reflexivity. Qed.

(** ** The two invocation clients *)

Section Clients.

Variable groq : ChatParams -> Outcome.

Lemma generate_resolved (prompt completion c : JsValue) (w : World) :
  groq (chat_params prompt) = Resolve completion ->
  fst (first_choice_content completion w) = Returned c ->
  generateGroqResponse groq prompt w =
  (Returned (orElse c (JString "No response generated.")),
   w +> [Create (chat_params prompt)]).
Proof.
  intros Hg Hc. destruct (first_choice_content_pure completion) as [r Hr].
  rewrite Hr in Hc. simpl in Hc. subst r.
  cbv [generateGroqResponse try_catch bind create emit ret].
  rewrite Hg, Hr. reflexivity.
Qed.

Lemma generate_malformed (prompt completion : JsValue) (e : JsError) (w : World) :
  groq (chat_params prompt) = Resolve completion ->
  fst (first_choice_content completion w) = Thrown e ->
  generateGroqResponse groq prompt w =
  (Thrown (Error "Failed to generate AI response"),
   w +> [Create (chat_params prompt); ConsoleError "❌ Groq API Error:" e]).
Proof.
  intros Hg Hc. destruct (first_choice_content_pure completion) as [r Hr].
  rewrite Hr in Hc. simpl in Hc. subst r.
  cbv [generateGroqResponse try_catch bind create emit ret].
  rewrite Hg, Hr.
  cbv [console_error emit throw with_trace trace files clock pending].
  now rewrite <- app_assoc.
Qed.

Lemma generate_rejected (prompt : JsValue) (e : JsError) (w : World) :
  groq (chat_params prompt) = Reject e ->
  generateGroqResponse groq prompt w =
  (Thrown (Error "Failed to generate AI response"),
   w +> [Create (chat_params prompt); ConsoleError "❌ Groq API Error:" e]).
Proof.
  intros Hg.
  cbv [generateGroqResponse try_catch bind create emit ret].
  rewrite Hg.
  cbv [console_error emit throw with_trace trace files clock pending].
  now rewrite <- app_assoc.
Qed.

(** Every call of the text client makes one outbound request, and either
    returns a truthy value or logs the cause and throws the generic error. *)
Lemma generate_cases (prompt : JsValue) (w : World) :
  (exists v, toBoolean v = true /\
     generateGroqResponse groq prompt w =
     (Returned v, w +> [Create (chat_params prompt)])) \/
  (exists e,
     generateGroqResponse groq prompt w =
     (Thrown (Error "Failed to generate AI response"),
      w +> [Create (chat_params prompt); ConsoleError "❌ Groq API Error:" e])).
Proof.
  destruct (groq (chat_params prompt)) as [completion|e] eqn:Hg.
  - destruct (fst (first_choice_content completion w)) as [c|e] eqn:Hc.
    + left. exists (orElse c (JString "No response generated.")). split.
      * now apply or_placeholder_truthy.
      * now apply generate_resolved with completion.
    + right. exists e. now apply generate_malformed with completion.
  - right. exists e. now apply generate_rejected.
Qed.

End Clients.

Section VisionClient.

Variable groq : ChatParams -> Outcome.

Lemma default_param_defined (arg dflt : JsValue) :
  arg <> JUndefined -> default_param arg dflt = arg.
Proof. destruct arg; simpl; congruence. Qed.

Lemma default_param_truthy (arg dflt : JsValue) :
  toBoolean arg = true -> default_param arg dflt = arg.
Proof. destruct arg; simpl; congruence. Qed.

Lemma analyze_resolved (b : string) (prompt completion c : JsValue) (w : World) :
  groq (vision_params b (default_param prompt default_prompt)) = Resolve completion ->
  fst (first_choice_content completion w) = Returned c ->
  analyzeImage groq b prompt w =
  (Returned (orElse c (JString "No analysis generated.")),
   w +> [Create (vision_params b (default_param prompt default_prompt))]).
Proof.
  intros Hg Hc. destruct (first_choice_content_pure completion) as [r Hr].
  rewrite Hr in Hc. simpl in Hc. subst r.
  cbv [analyzeImage try_catch bind create emit ret].
  fold default_prompt. rewrite Hg, Hr. reflexivity.
Qed.

Lemma analyze_malformed (b : string) (prompt completion : JsValue)
    (e : JsError) (w : World) :
  groq (vision_params b (default_param prompt default_prompt)) = Resolve completion ->
  fst (first_choice_content completion w) = Thrown e ->
  analyzeImage groq b prompt w =
  (Thrown (Error "Failed to analyze image"),
   w +> [Create (vision_params b (default_param prompt default_prompt));
         ConsoleError "❌ Vision API Error:" e]).
Proof.
  intros Hg Hc. destruct (first_choice_content_pure completion) as [r Hr].
  rewrite Hr in Hc. simpl in Hc. subst r.
  cbv [analyzeImage try_catch bind create emit ret].
  fold default_prompt. rewrite Hg, Hr.
  cbv [console_error emit throw with_trace trace files clock pending].
  now rewrite <- app_assoc.
Qed.

Lemma analyze_rejected (b : string) (prompt : JsValue) (e : JsError) (w : World) :
  groq (vision_params b (default_param prompt default_prompt)) = Reject e ->
  analyzeImage groq b prompt w =
  (Thrown (Error "Failed to analyze image"),
   w +> [Create (vision_params b (default_param prompt default_prompt));
         ConsoleError "❌ Vision API Error:" e]).
Proof.
  intros Hg.
  cbv [analyzeImage try_catch bind create emit ret].
  fold default_prompt. rewrite Hg.
  cbv [console_error emit throw with_trace trace files clock pending].
  now rewrite <- app_assoc.
Qed.

(** Every call of the vision client makes one outbound request, and either
    returns a truthy value or logs the cause and throws the generic error. *)
Lemma analyze_cases (b : string) (prompt : JsValue) (w : World) :
  let params := vision_params b (default_param prompt default_prompt) in
  (exists v, toBoolean v = true /\
     analyzeImage groq b prompt w = (Returned v, w +> [Create params])) \/
  (exists e,
     analyzeImage groq b prompt w =
     (Thrown (Error "Failed to analyze image"),
      w +> [Create params; ConsoleError "❌ Vision API Error:" e])).
Proof.
  intros params. subst params.
  destruct (groq (vision_params b (default_param prompt default_prompt)))
    as [completion|e] eqn:Hg.
  - destruct (fst (first_choice_content completion w)) as [c|e] eqn:Hc.
    + left. exists (orElse c (JString "No analysis generated.")). split.
      * now apply or_placeholder_truthy.
      * now apply analyze_resolved with completion.
    + right. exists e. now apply analyze_malformed with completion.
  - right. exists e. now apply analyze_rejected.
Qed.

(** ** The encoder *)

Lemma read_error_none (w : World) (p : string) :
  read_error w p = None <->
  exists f, files w !! p = Some f /\ readable f = true.
Proof.
  unfold read_error. destruct (files w !! p) as [f|] eqn:E.
  - destruct (readable f) eqn:R; split; try discriminate; eauto.
    intros (f' & Hf & Hr). congruence.
  - split; [discriminate|]. intros (f & Hf & _). discriminate.
Qed.

Lemma readFileSync_ok (p : string) (f : File) (w : World) :
  files w !! p = Some f -> readable f = true ->
  readFileSync p w = (Returned (data f), w +> [ReadFile p]).
Proof.
  intros Hf Hr. cbv [readFileSync bind emit with_trace files].
  fold (files w). now rewrite Hf, Hr.
Qed.

Lemma readFileSync_error (p : string) (e : JsError) (w : World) :
  read_error w p = Some e ->
  readFileSync p w = (Thrown e, w +> [ReadFile p]).
Proof.
  unfold read_error. intros He.
  cbv [readFileSync bind emit with_trace files]. fold (files w).
  destruct (files w !! p) as [f|]; [destruct (readable f)|]; congruence.
Qed.

Lemma encode_ok (p : string) (f : File) (w : World) :
  files w !! p = Some f -> readable f = true ->
  encodeImageToBase64 p w = (Returned (Base64.encode (data f)), w +> [ReadFile p]).
Proof.
  intros Hf Hr. unfold encodeImageToBase64, bind.
  now rewrite (readFileSync_ok p f w Hf Hr).
Qed.

Lemma encode_error (p : string) (e : JsError) (w : World) :
  read_error w p = Some e ->
  encodeImageToBase64 p w = (Thrown e, w +> [ReadFile p]).
Proof.
  intros He. unfold encodeImageToBase64, bind.
  now rewrite (readFileSync_error p e w He).
Qed.

End VisionClient.

(** ** The two routes, path by path *)

Section Routes.

Variable groq : ChatParams -> Outcome.

Lemma post_message_invalid (req : Request) (w : World) :
  toBoolean (prop (req_body req) "message") = false ->
  post_message groq req w = (Returned tt, w +> [Respond message_required]).
Proof.
  intros H. cbv [post_message try_catch]. rewrite H. reflexivity.
Qed.

Lemma post_message_replied (req : Request) (v : JsValue) (w w1 : World) :
  toBoolean (prop (req_body req) "message") = true ->
  generateGroqResponse groq (prop (req_body req) "message") w = (Returned v, w1) ->
  post_message groq req w =
  (Returned tt,
   w1 +> [Respond (mkResponse 200
            (JObject {[ "reply" := v; "timestamp" := JString (clock w1) ]}))]).
Proof.
  intros H Hg. cbv [post_message try_catch bind]. rewrite H.
  cbv [negb]. cbv beta. rewrite Hg. reflexivity.
Qed.

Lemma post_message_failed (req : Request) (e : JsError) (w w1 : World) :
  toBoolean (prop (req_body req) "message") = true ->
  generateGroqResponse groq (prop (req_body req) "message") w = (Thrown e, w1) ->
  post_message groq req w =
  (Returned tt, w1 +> [ConsoleError "Chat error:" e; Respond chat_failure]).
Proof.
  intros H Hg. cbv [post_message try_catch bind]. rewrite H.
  cbv [negb]. cbv beta. rewrite Hg.
  cbv [console_error res_status_json emit with_trace trace files clock pending].
  now rewrite <- app_assoc.
Qed.

Lemma post_analyze_no_file (req : Request) (w : World) :
  req_file req = None ->
  post_analyze groq req w = (Returned tt, w +> [Respond no_image_uploaded]).
Proof.
  intros H. cbv [post_analyze try_catch]. rewrite H. reflexivity.
Qed.

Lemma post_analyze_encode_failed (req : Request) (file : UploadedFile)
    (e : JsError) (w w1 : World) :
  req_file req = Some file ->
  encodeImageToBase64 (path file) w = (Thrown e, w1) ->
  post_analyze groq req w =
  (Returned tt, w1 +> [ConsoleError "Vision route error:" e; Respond vision_failure]).
Proof.
  intros H He. cbv [post_analyze try_catch bind]. rewrite H, He.
  cbv [console_error res_status_json emit with_trace trace files clock pending].
  now rewrite <- app_assoc.
Qed.

Lemma post_analyze_failed (req : Request) (file : UploadedFile) (b : string)
    (e : JsError) (w w1 w2 : World) :
  req_file req = Some file ->
  encodeImageToBase64 (path file) w = (Returned b, w1) ->
  analyzeImage groq b (orElse (prop (req_body req) "prompt") default_prompt) w1 =
    (Thrown e, w2) ->
  post_analyze groq req w =
  (Returned tt, w2 +> [ConsoleError "Vision route error:" e; Respond vision_failure]).
Proof.
  intros H He Ha. cbv [post_analyze try_catch bind]. rewrite H, He.
  fold default_prompt. rewrite Ha.
  cbv [console_error res_status_json emit with_trace trace files clock pending].
  now rewrite <- app_assoc.
Qed.

Lemma post_analyze_replied (req : Request) (file : UploadedFile) (b : string)
    (v : JsValue) (w w1 w2 : World) :
  req_file req = Some file ->
  encodeImageToBase64 (path file) w = (Returned b, w1) ->
  analyzeImage groq b (orElse (prop (req_body req) "prompt") default_prompt) w1 =
    (Returned v, w2) ->
  post_analyze groq req w =
  (Returned tt,
   with_pending (pending w2 ++ [path file]) w2
   +> [Unlink (path file);
       Respond (mkResponse 200
         (JObject {[ "analysis" := v; "timestamp" := JString (clock w2) ]}))]).
Proof.
  intros H He Ha. cbv [post_analyze try_catch bind]. rewrite H, He.
  fold default_prompt. rewrite Ha.
  cbv [fs_unlink bind res_json res_status_json new_Date_toISOString emit
       with_trace with_pending trace files clock pending].
  now rewrite <- app_assoc.
Qed.

(** Neither handler lets an exception escape. *)
Lemma post_message_returns (req : Request) (w : World) :
  fst (post_message groq req w) = Returned tt.
Proof.
  destruct (toBoolean (prop (req_body req) "message")) eqn:H.
  - destruct (generateGroqResponse groq (prop (req_body req) "message") w)
      as [[v|e] w1] eqn:Hg.
    + now rewrite (post_message_replied req v w w1 H Hg).
    + now rewrite (post_message_failed req e w w1 H Hg).
  - now rewrite (post_message_invalid req w H).
Qed.

Lemma post_analyze_returns (req : Request) (w : World) :
  fst (post_analyze groq req w) = Returned tt.
Proof.
  destruct (req_file req) as [file|] eqn:H.
  - destruct (encodeImageToBase64 (path file) w) as [[b|e] w1] eqn:He.
    + destruct (analyzeImage groq b
                  (orElse (prop (req_body req) "prompt") default_prompt) w1)
        as [[v|e] w2] eqn:Ha.
      * now rewrite (post_analyze_replied req file b v w w1 w2 H He Ha).
      * now rewrite (post_analyze_failed req file b e w w1 w2 H He Ha).
    + now rewrite (post_analyze_encode_failed req file e w w1 H He).
  - now rewrite (post_analyze_no_file req w H).
Qed.

End Routes.

(** ** Validation *)

(** Reading back what a handler added to the trace. *)
Ltac trace_since :=
  apply since_extend; cbn [trace with_trace with_pending];
  rewrite <- ?app_assoc; reflexivity.

Ltac read_since :=
  unfold since; cbn [trace with_trace with_pending];
  rewrite <- ?app_assoc; rewrite drop_app_length.

Lemma since_one (w : World) (a : list Event) : since w (w +> a) = a.
Proof. trace_since. Qed.

Lemma since_two (w : World) (a b : list Event) :
  since w (w +> a +> b) = a ++ b.
Proof. trace_since. Qed.

Lemma since_three (w : World) (a b c : list Event) :
  since w (w +> a +> b +> c) = a ++ b ++ c.
Proof. trace_since. Qed.

Lemma prop_missing (o : gmap string JsValue) (k : string) :
  o !! k = None -> prop o k = JUndefined.
Proof. unfold prop. now intros ->. Qed.

Lemma prop_present (o : gmap string JsValue) (k : string) (v : JsValue) :
  o !! k = Some v -> prop o k = v.
Proof. unfold prop. now intros ->. Qed.

(** C3.  A text request whose [message] field is absent, [null] or the
    empty string is answered with exactly [400 { error: "Message is
    required" }]: that response is the only effect of the handler, so the
    model invocation client is not called. *)
Theorem C3_missing_message_rejected
    (groq : ChatParams -> Outcome) (req : Request) (w : World) :
  req_body req !! "message" = None \/
  req_body req !! "message" = Some JNull \/
  req_body req !! "message" = Some (JString "") ->
  post_message groq req w =
    (Returned tt,
     w +> [Respond (mkResponse 400 (error_body "Message is required"))]) /\
  responses (since w (snd (post_message groq req w))) =
    [mkResponse 400 (error_body "Message is required")] /\
  creates (since w (snd (post_message groq req w))) = [].
Proof.
  intros H.
  assert (Hf : toBoolean (prop (req_body req) "message") = false).
  { destruct H as [H | [H | H]].
    - now rewrite (prop_missing _ _ H).
    - now rewrite (prop_present _ _ _ H).
    - now rewrite (prop_present _ _ _ H). }
  rewrite (post_message_invalid groq req w Hf). cbn [snd].
  rewrite since_one. repeat split; reflexivity.
Qed.

Lemma C3_missing_message_rejected_witness :
  req_body Sample.empty_request !! "message" = None /\
  responses (since Sample.world
    (snd (post_message Sample.failing Sample.empty_request Sample.world))) =
    [mkResponse 400 (error_body "Message is required")].
Proof.
  split; [reflexivity|].
  apply (C3_missing_message_rejected Sample.failing Sample.empty_request
           Sample.world).
  left. reflexivity.
Defined.

(** C4.  A vision request without an attached image is answered with
    exactly [400 { error: "No image uploaded" }]: that response is the only
    effect of the handler, so no file is read (the encoder is not invoked)
    and no outbound call is made (the vision client is not invoked). *)
Theorem C4_missing_image_rejected
    (groq : ChatParams -> Outcome) (req : Request) (w : World) :
  req_file req = None ->
  post_analyze groq req w =
    (Returned tt,
     w +> [Respond (mkResponse 400 (error_body "No image uploaded"))]) /\
  responses (since w (snd (post_analyze groq req w))) =
    [mkResponse 400 (error_body "No image uploaded")] /\
  reads (since w (snd (post_analyze groq req w))) = [] /\
  creates (since w (snd (post_analyze groq req w))) = [].
Proof.
  intros H. rewrite (post_analyze_no_file groq req w H). cbn [snd].
  rewrite since_one. repeat split; reflexivity.
Qed.

Lemma C4_missing_image_rejected_witness :
  req_file (Sample.text_request (JString "hello")) = None /\
  responses (since Sample.world
    (snd (post_analyze Sample.failing (Sample.text_request (JString "hello"))
            Sample.world))) =
    [mkResponse 400 (error_body "No image uploaded")].
Proof.
  split; [reflexivity|].
  apply (C4_missing_image_rejected Sample.failing
           (Sample.text_request (JString "hello")) Sample.world).
  reflexivity.
Defined.

(** C10.  The text route tests nothing but the truthiness of [message].
    A falsy value (absent, [null], [""], [0], [false], [NaN]) is answered
    with [400 { error: "Message is required" }] and nothing else happens.
    A truthy value of any type (number, object, array, non-empty string)
    passes: the first thing the handler does is the outbound call, whose
    message content is that value unchanged, and the one response that
    follows is not the 400. *)
Theorem C10_validation_is_truthiness
    (groq : ChatParams -> Outcome) (req : Request) (w : World) :
  let message := prop (req_body req) "message" in
  let w' := snd (post_message groq req w) in
  (toBoolean message = false ->
     post_message groq req w =
       (Returned tt,
        w +> [Respond (mkResponse 400 (error_body "Message is required"))])) /\
  (toBoolean message = true ->
     exists rest r,
       since w w' = Create (chat_params message) :: rest /\
       prompts (chat_params message) = [message] /\
       creates rest = [] /\
       responses rest = [r] /\ res_status r <> 400%Z) /\
  (toBoolean JUndefined = false /\ toBoolean JNull = false /\
   toBoolean (JString "") = false /\ toBoolean (JNumber 0) = false /\
   toBoolean (JBool false) = false /\ toBoolean (JNumber nan) = false) /\
  (forall o, toBoolean (JObject o) = true) /\
  (forall items, toBoolean (JArray items) = true) /\
  (forall s, s <> "" -> toBoolean (JString s) = true) /\
  (forall x, (is_nan x || is_zero x) = false -> toBoolean (JNumber x) = true).
Proof.
  intros message w'. subst w'. split; [|split; [|split]].
  - apply post_message_invalid.
  - intros Ht. fold message.
    destruct (generate_cases groq message w) as [(v & Hv & Hg) | (e & Hg)].
    + rewrite (post_message_replied groq req v w _ Ht Hg). cbn [snd].
      rewrite since_two. eexists _, _. repeat split; discriminate.
    + rewrite (post_message_failed groq req _ w _ Ht Hg). cbn [snd].
      rewrite since_two. eexists _, _. repeat split; discriminate.
  - repeat split; reflexivity.
  - repeat split; try reflexivity.
    + intros s Hs. now apply toBoolean_string.
    + intros x Hx. simpl. now rewrite Hx.
Qed.

Lemma C10_validation_is_truthiness_witness :
  toBoolean (prop (req_body (Sample.text_request (JNumber 42))) "message") = true /\
  exists rest r,
    since Sample.world
      (snd (post_message (Sample.answering (JString "hi"))
              (Sample.text_request (JNumber 42)) Sample.world)) =
      Create (chat_params (JNumber 42)) :: rest /\
    responses rest = [r] /\ res_status r <> 400%Z.
Proof.
  split; [reflexivity|].
  destruct (C10_validation_is_truthiness (Sample.answering (JString "hi"))
              (Sample.text_request (JNumber 42)) Sample.world)
    as (_ & Ht & _).
  destruct (Ht eq_refl) as (rest & r & H1 & _ & _ & H2 & H3).
  exists rest, r. repeat split; assumption.
Defined.

(** ** The upload's fate *)

Lemma settle_idle (w : World) : pending w = [] -> settle w = w.
Proof. destruct w as [fs c ps tr]. simpl. now intros ->. Qed.

Lemma complete_unlink_returns (p : string) (w : World) :
  fst (complete_unlink p w) = Returned tt.
Proof.
  unfold complete_unlink.
  destruct (files w !! p) as [f|]; [destruct (removable f)|]; reflexivity.
Qed.

Lemma settle_single (p : string) (w : World) :
  pending w = [p] -> settle w = snd (complete_unlink p (with_pending [] w)).
Proof.
  intros H. unfold settle. rewrite H. cbn [complete_all]. unfold bind.
  pose proof (complete_unlink_returns p (with_pending [] w)) as Hr.
  destruct (complete_unlink p (with_pending [] w)) as [[[]|e] w1];
    [reflexivity | discriminate].
Qed.

Section Upload.

Variable groq : ChatParams -> Outcome.
Variables (req : Request) (file : UploadedFile) (f : File) (w : World).

Hypothesis attached : req_file req = Some file.
Hypothesis stored : files w !! path file = Some f.
Hypothesis can_read : readable f = true.
Hypothesis idle : pending w = [].

Let b : string := Base64.encode (data f).
Let prompt : JsValue := orElse (prop (req_body req) "prompt") default_prompt.
Let params : ChatParams := vision_params b (default_param prompt default_prompt).

(** When the vision client returns, the route issues the unlink before it
    responds; the file is gone once the event loop has completed the
    request, provided the process may remove it. *)
Lemma upload_removed_after_reply (v : JsValue) :
  fst (analyzeImage groq b prompt (w +> [ReadFile (path file)])) = Returned v ->
  removable f = true ->
  since w (snd (post_analyze groq req w)) =
    [ReadFile (path file); Create params; Unlink (path file);
     Respond (mkResponse 200
       (JObject {[ "analysis" := v; "timestamp" := JString (clock w) ]}))] /\
  files (serve (post_analyze groq) req w) = delete (path file) (files w).
Proof.
  intros Ha Hrm.
  pose proof (encode_ok (path file) f w stored can_read) as He. fold b in He.
  destruct (analyze_cases groq b prompt (w +> [ReadFile (path file)]))
    as [(v' & _ & Hv) | (e & Hv)]; rewrite Hv in Ha; [|discriminate].
  cbn [fst] in Ha. injection Ha as ->.
  unfold serve.
  rewrite (post_analyze_replied groq req file b v w _ _ attached He Hv).
  cbn [snd]. split; [trace_since|].
  rewrite (settle_single (path file)) by (cbn; now rewrite idle).
  unfold complete_unlink. cbn [files with_pending with_trace].
  now rewrite stored, Hrm.
Qed.

(** When the process may not remove the file, the failed unlink is only
    logged, after the response, and the file stays. *)
Lemma upload_kept_when_unlink_fails (v : JsValue) :
  fst (analyzeImage groq b prompt (w +> [ReadFile (path file)])) = Returned v ->
  removable f = false ->
  since w (serve (post_analyze groq) req w) =
    [ReadFile (path file); Create params; Unlink (path file);
     Respond (mkResponse 200
       (JObject {[ "analysis" := v; "timestamp" := JString (clock w) ]}));
     ConsoleError "Failed to delete temp file:" (EPERM "unlink" (path file))] /\
  files (serve (post_analyze groq) req w) = files w.
Proof.
  intros Ha Hrm.
  pose proof (encode_ok (path file) f w stored can_read) as He. fold b in He.
  destruct (analyze_cases groq b prompt (w +> [ReadFile (path file)]))
    as [(v' & _ & Hv) | (e & Hv)]; rewrite Hv in Ha; [|discriminate].
  cbn [fst] in Ha. injection Ha as ->.
  unfold serve.
  rewrite (post_analyze_replied groq req file b v w _ _ attached He Hv).
  cbn [snd].
  rewrite (settle_single (path file)) by (cbn; now rewrite idle).
  unfold complete_unlink. cbn [files with_pending with_trace].
  rewrite stored, Hrm. cbv [unlink_callback console_error emit snd].
  split; [trace_since | reflexivity].
Qed.

(** When the vision client throws, control goes to the route's [catch]:
    no unlink is ever issued and the file stays for good. *)
Lemma upload_kept_after_failed_analysis (e : JsError) :
  fst (analyzeImage groq b prompt (w +> [ReadFile (path file)])) = Thrown e ->
  responses (since w (serve (post_analyze groq) req w)) = [vision_failure] /\
  unlinks (since w (serve (post_analyze groq) req w)) = [] /\
  pending (serve (post_analyze groq) req w) = [] /\
  files (serve (post_analyze groq) req w) = files w.
Proof.
  intros Ha.
  pose proof (encode_ok (path file) f w stored can_read) as He. fold b in He.
  destruct (analyze_cases groq b prompt (w +> [ReadFile (path file)]))
    as [(v' & _ & Hv) | (e' & Hv)]; rewrite Hv in Ha; [discriminate|].
  unfold serve.
  rewrite (post_analyze_failed groq req file b _ w _ _ attached He Hv).
  cbn [snd]. rewrite settle_idle by (cbn; exact idle).
  rewrite since_three. repeat split. exact idle.
Qed.

End Upload.

(** The same when the encoder throws: an upload the process cannot read is
    answered with the generic failure and is never unlinked. *)
Lemma upload_kept_after_failed_read
    (groq : ChatParams -> Outcome) (req : Request) (file : UploadedFile)
    (e : JsError) (w : World) :
  req_file req = Some file ->
  read_error w (path file) = Some e ->
  pending w = [] ->
  responses (since w (serve (post_analyze groq) req w)) = [vision_failure] /\
  unlinks (since w (serve (post_analyze groq) req w)) = [] /\
  files (serve (post_analyze groq) req w) = files w.
Proof.
  intros Hf He Hp. unfold serve.
  rewrite (post_analyze_encode_failed groq req file e w _ Hf
             (encode_error (path file) e w He)).
  cbn [snd]. rewrite settle_idle by (cbn; exact Hp).
  rewrite since_two. repeat split.
Qed.

(** C1.  A vision request with an image attached, on which the vision
    model call fails: the handler answers with the generic failure, no
    [fs.unlink] is issued at any point, nothing is left with the event
    loop, and the temporary upload is still on the filesystem after the
    response, with its content. *)
Theorem C1_upload_survives_failed_analysis :
  let w' := serve (post_analyze Sample.failing)
              (Sample.vision_request (JString "describe")) Sample.world in
  req_file (Sample.vision_request (JString "describe")) = Some Sample.upload /\
  responses (trace w') = [vision_failure] /\
  unlinks (trace w') = [] /\
  pending w' = [] /\
  files w' !! path Sample.upload = Some (mkFile Sample.png true true).
Proof. vm_compute. repeat split. Qed.

(** ** What reaches the vision model *)

Lemma encode_cases (p : string) (w : World) :
  (exists f, files w !! p = Some f /\ readable f = true /\
     encodeImageToBase64 p w =
       (Returned (Base64.encode (data f)), w +> [ReadFile p])) \/
  (exists e, read_error w p = Some e /\
     encodeImageToBase64 p w = (Thrown e, w +> [ReadFile p])).
Proof.
  destruct (read_error w p) as [e|] eqn:He.
  - right. exists e. split; [reflexivity | now apply encode_error].
  - left. apply read_error_none in He as (f & Hf & Hr).
    exists f. repeat split; try assumption. now apply encode_ok.
Qed.

(** The prompt the route passes on is never [undefined], so the default of
    [analyzeImage]'s parameter never applies. *)
Lemma route_prompt_defined (p : JsValue) :
  default_param (orElse p default_prompt) default_prompt = orElse p default_prompt.
Proof.
  apply default_param_truthy. unfold orElse.
  destruct (toBoolean p) eqn:E; [exact E | reflexivity].
Qed.

(** Whenever the upload can be read, the route makes exactly one outbound
    call, with the encoded file and the route's prompt. *)
Lemma post_analyze_creates
    (groq : ChatParams -> Outcome) (req : Request) (file : UploadedFile)
    (f : File) (w : World) :
  req_file req = Some file ->
  files w !! path file = Some f ->
  readable f = true ->
  creates (since w (snd (post_analyze groq req w))) =
    [vision_params (Base64.encode (data f))
       (orElse (prop (req_body req) "prompt") default_prompt)].
Proof.
  intros Hfile Hf Hr.
  pose proof (encode_ok (path file) f w Hf Hr) as He.
  destruct (analyze_cases groq (Base64.encode (data f))
              (orElse (prop (req_body req) "prompt") default_prompt)
              (w +> [ReadFile (path file)]))
    as [(v & _ & Hv) | (e & Hv)]; rewrite route_prompt_defined in Hv.
  - rewrite (post_analyze_replied groq req file _ v w _ _ Hfile He Hv).
    cbn [snd].
    replace (since w _) with
      ([ReadFile (path file)]
       ++ [Create (vision_params (Base64.encode (data f))
                     (orElse (prop (req_body req) "prompt") default_prompt))]
       ++ [Unlink (path file);
           Respond (mkResponse 200
             (JObject {[ "analysis" := v;
                         "timestamp" := JString (clock w) ]}))])
      by (symmetry; trace_since).
    reflexivity.
  - rewrite (post_analyze_failed groq req file _ _ w _ _ Hfile He Hv).
    cbn [snd]. rewrite since_three. reflexivity.
Qed.

(** C5.  Whatever base64 payload [b] the vision client is given, the one
    request it sends carries exactly one image reference, the string
    ["data:image/jpeg;base64,"] followed by [b].  Through the route this
    holds for every upload: whatever its bytes, its name and the content
    type the client declared, the reference is that fixed prefix followed
    by the encoding of the file. *)
Theorem C5_image_reference_is_jpeg_data_uri (groq : ChatParams -> Outcome) :
  (forall (b : string) (prompt : JsValue) (w : World),
     exists params,
       creates (since w (snd (analyzeImage groq b prompt w))) = [params] /\
       image_urls params = [("data:image/jpeg;base64," ++ b)%string]) /\
  (forall (body : gmap string JsValue) (name type p : string) (f : File)
          (w : World),
     files w !! p = Some f ->
     readable f = true ->
     map image_urls
       (creates (since w
          (snd (post_analyze groq
                  (mkRequest body (Some (mkUpload name type p))) w)))) =
     [[("data:image/jpeg;base64," ++ Base64.encode (data f))%string]]).
Proof.
  split.
  - intros b prompt w.
    exists (vision_params b (default_param prompt default_prompt)).
    split; [|reflexivity].
    destruct (analyze_cases groq b prompt w) as [(v & _ & Hv) | (e & Hv)];
      rewrite Hv; cbn [snd]; rewrite since_one; reflexivity.
  - intros body name type p f w Hf Hr.
    rewrite (post_analyze_creates groq
               (mkRequest body (Some (mkUpload name type p)))
               (mkUpload name type p) f w eq_refl Hf Hr).
    reflexivity.
Qed.

Lemma C5_image_reference_is_jpeg_data_uri_witness :
  map image_urls
    (creates (since Sample.world
       (snd (post_analyze (Sample.answering (JString "a pixel"))
               (Sample.vision_request (JString "describe")) Sample.world)))) =
  [["data:image/jpeg;base64,iVBORw0KGgo="]].
Proof.
  exact (proj2 (C5_image_reference_is_jpeg_data_uri
                  (Sample.answering (JString "a pixel")))
           {[ "prompt" := JString "describe" ]} "pixel.png" "image/png"
           "uploads/3f2a" (mkFile Sample.png true true) Sample.world
           eq_refl eq_refl).
Defined.

(** C7, as amended.  On a vision request whose upload can be read, the
    prompt sent to the model is exactly ["What's in this image?"] when the
    [prompt] field is absent or the empty string; every truthy [prompt], so
    every non-empty string, white space included, is sent unchanged. *)
Theorem C7_prompt_defaults_when_empty
    (groq : ChatParams -> Outcome) (req : Request) (file : UploadedFile)
    (f : File) (w : World) :
  req_file req = Some file ->
  files w !! path file = Some f ->
  readable f = true ->
  let sent :=
    flat_map prompts (creates (since w (snd (post_analyze groq req w)))) in
  (req_body req !! "prompt" = None \/
   req_body req !! "prompt" = Some (JString "") ->
   sent = [JString "What's in this image?"]) /\
  (forall v, req_body req !! "prompt" = Some v -> toBoolean v = true ->
   sent = [v]) /\
  (forall s, req_body req !! "prompt" = Some (JString s) -> s <> "" ->
   sent = [JString s]).
Proof.
  intros Hfile Hf Hr sent. subst sent.
  rewrite (post_analyze_creates groq req file f w Hfile Hf Hr).
  cbn [flat_map prompts messages vision_params content part_texts omap
       list_omap app].
  assert (Htruthy : forall v, req_body req !! "prompt" = Some v ->
            toBoolean v = true ->
            [orElse (prop (req_body req) "prompt") default_prompt] = [v]).
  { intros v Hv Ht. rewrite (prop_present _ _ _ Hv). now rewrite or_truthy. }
  split; [|split].
  - intros [H | H].
    + now rewrite (prop_missing _ _ H).
    + now rewrite (prop_present _ _ _ H).
  - exact Htruthy.
  - intros s Hs Hne. apply Htruthy; [exact Hs | now apply toBoolean_string].
Qed.

Lemma C7_prompt_defaults_when_empty_witness :
  flat_map prompts
    (creates (since Sample.world
       (snd (post_analyze Sample.failing Sample.vision_request_no_prompt
               Sample.world)))) =
  [JString "What's in this image?"].
Proof.
  destruct (C7_prompt_defaults_when_empty Sample.failing
              Sample.vision_request_no_prompt Sample.upload
              (mkFile Sample.png true true) Sample.world
              eq_refl eq_refl eq_refl) as (Hempty & _ & _).
  apply Hempty. left. reflexivity.
Defined.

(** C7, as stated, fails on a prompt of one space: it is blank (trimming it
    leaves nothing), yet the model is asked [" "], not the default. *)
Lemma C7_blank_prompt_sent_unchanged :
  blank " " = true /\
  req_body (Sample.vision_request (JString " ")) !! "prompt" = Some (JString " ") /\
  flat_map prompts
    (creates (since Sample.world
       (snd (post_analyze Sample.failing (Sample.vision_request (JString " "))
               Sample.world)))) = [JString " "] /\
  JString " " <> JString "What's in this image?".
Proof. vm_compute. repeat split. discriminate. Qed.

(** ** Failures of the model call *)

(** A rejected call, end to end on the text route: the SDK's error is
    logged by the client, the client's generic error is logged by the
    route, and the response is the fixed one. *)
Lemma post_message_endpoint_rejects
    (groq : ChatParams -> Outcome) (req : Request) (e : JsError) (w : World) :
  toBoolean (prop (req_body req) "message") = true ->
  groq (chat_params (prop (req_body req) "message")) = Reject e ->
  since w (snd (post_message groq req w)) =
    [Create (chat_params (prop (req_body req) "message"));
     ConsoleError "❌ Groq API Error:" e;
     ConsoleError "Chat error:" (Error "Failed to generate AI response");
     Respond chat_failure].
Proof.
  intros Ht Hg.
  rewrite (post_message_failed groq req _ w _ Ht
             (generate_rejected groq _ e w Hg)).
  cbn [snd]. now rewrite since_two.
Qed.

(** C2.  Whenever the text client throws, for whatever cause [e0], the
    text route sends exactly one response, [500 { error: "Failed to process
    your message" }]; whenever the vision client throws, the vision route
    sends exactly one response, [500 { error: "Failed to analyze image" }].
    Both responses are constants: nothing of the underlying error is in
    them. *)
Theorem C2_client_failure_is_generic_500
    (groq : ChatParams -> Outcome) (req : Request) (w : World) :
  (forall (e0 : JsError) (w1 : World),
     toBoolean (prop (req_body req) "message") = true ->
     generateGroqResponse groq (prop (req_body req) "message") w =
       (Thrown e0, w1) ->
     responses (since w (snd (post_message groq req w))) =
       [mkResponse 500 (error_body "Failed to process your message")]) /\
  (forall (file : UploadedFile) (b : string) (e0 : JsError) (w1 w2 : World),
     req_file req = Some file ->
     encodeImageToBase64 (path file) w = (Returned b, w1) ->
     analyzeImage groq b
       (orElse (prop (req_body req) "prompt") (JString "What's in this image?"))
       w1 = (Thrown e0, w2) ->
     responses (since w (snd (post_analyze groq req w))) =
       [mkResponse 500 (error_body "Failed to analyze image")]).
Proof.
  split.
  - intros e0 w1 Ht Hg.
    rewrite (post_message_failed groq req e0 w w1 Ht Hg). cbn [snd].
    destruct (generate_cases groq (prop (req_body req) "message") w)
      as [(v & _ & Hv) | (e & Hv)]; rewrite Hv in Hg; [discriminate|].
    injection Hg as <- <-. rewrite since_two. reflexivity.
  - intros file b e0 w1 w2 Hfile He Ha. fold default_prompt in Ha.
    rewrite (post_analyze_failed groq req file b e0 w w1 w2 Hfile He Ha).
    cbn [snd].
    destruct (encode_cases (path file) w)
      as [(f & _ & _ & Hf) | (e & _ & Hf)]; rewrite Hf in He;
      [|discriminate].
    injection He as <- <-.
    destruct (analyze_cases groq (Base64.encode (data f))
                (orElse (prop (req_body req) "prompt") default_prompt)
                (w +> [ReadFile (path file)]))
      as [(v & _ & Hv) | (e & Hv)]; rewrite Hv in Ha; [discriminate|].
    injection Ha as <- <-. read_since. reflexivity.
Qed.

Lemma C2_client_failure_is_generic_500_witness :
  responses (since Sample.world
    (snd (post_message Sample.failing (Sample.text_request (JString "hello"))
            Sample.world))) =
    [mkResponse 500 (error_body "Failed to process your message")] /\
  responses (since Sample.world
    (snd (post_analyze Sample.failing
            (Sample.vision_request (JString "describe")) Sample.world))) =
    [mkResponse 500 (error_body "Failed to analyze image")].
Proof.
  destruct (C2_client_failure_is_generic_500 Sample.failing
              (Sample.text_request (JString "hello")) Sample.world)
    as (Htext & _).
  destruct (C2_client_failure_is_generic_500 Sample.failing
              (Sample.vision_request (JString "describe")) Sample.world)
    as (_ & Hvision).
  split.
  - exact (Htext _ _ eq_refl eq_refl).
  - exact (Hvision Sample.upload _ _ _ _ eq_refl eq_refl eq_refl).
Defined.

(** ** Replies without content *)

(** C6.  When the endpoint's completion has no candidate content (an empty
    [choices] list, or a first candidate without a message or without
    message content), the text client returns the fixed text
    ["No response generated."] and the vision client the fixed text
    ["No analysis generated."]; neither text is empty. *)
Theorem C6_placeholder_without_content
    (groq : ChatParams -> Outcome) (completion : JsValue) :
  no_candidate_content completion ->
  (forall (prompt : JsValue) (w : World),
     groq (chat_params prompt) = Resolve completion ->
     generateGroqResponse groq prompt w =
       (Returned (JString "No response generated."),
        w +> [Create (chat_params prompt)])) /\
  (forall (b : string) (prompt : JsValue) (w : World),
     groq (vision_params b (default_param prompt default_prompt)) =
       Resolve completion ->
     analyzeImage groq b prompt w =
       (Returned (JString "No analysis generated."),
        w +> [Create (vision_params b (default_param prompt default_prompt))])) /\
  "No response generated." <> "" /\ "No analysis generated." <> "".
Proof.
  intros Hno. split; [|split; [|split; discriminate]].
  - intros prompt w Hg.
    destruct (first_choice_content_no_content completion w Hno)
      as (c & Hc & Hn).
    rewrite (generate_resolved groq prompt completion c w Hg)
      by now rewrite Hc.
    now rewrite (or_falsy c _ (nullish_falsy c Hn)).
  - intros b prompt w Hg.
    destruct (first_choice_content_no_content completion w Hno)
      as (c & Hc & Hn).
    rewrite (analyze_resolved groq b prompt completion c w Hg)
      by now rewrite Hc.
    now rewrite (or_falsy c _ (nullish_falsy c Hn)).
Qed.

Lemma C6_placeholder_without_content_witness :
  no_candidate_content (JObject {[ "choices" := JArray [] ]}) /\
  fst (generateGroqResponse Sample.silent (JString "hello") Sample.world) =
    Returned (JString "No response generated.") /\
  fst (analyzeImage Sample.silent "iVBORw0KGgo=" (JString "describe")
         Sample.world) =
    Returned (JString "No analysis generated.").
Proof.
  assert (H : no_candidate_content (JObject {[ "choices" := JArray [] ]}))
    by (apply no_choices; reflexivity).
  destruct (C6_placeholder_without_content Sample.silent _ H)
    as (Htext & Hvision & _).
  split; [exact H | split].
  - now rewrite (Htext (JString "hello") Sample.world eq_refl).
  - now rewrite (Hvision "iVBORw0KGgo=" (JString "describe") Sample.world
                   eq_refl).
Defined.

(** ** Replies are never empty *)

(** The one response of the text route is the validation error, the generic
    failure, or a 200 whose [reply] is truthy. *)
Lemma post_message_responses
    (groq : ChatParams -> Outcome) (req : Request) (w : World) :
  exists r,
    responses (since w (snd (post_message groq req w))) = [r] /\
    (r = message_required \/ r = chat_failure \/
     exists v, toBoolean v = true /\
       r = mkResponse 200
             (JObject {[ "reply" := v; "timestamp" := JString (clock w) ]})).
Proof.
  destruct (toBoolean (prop (req_body req) "message")) eqn:Ht.
  - destruct (generate_cases groq (prop (req_body req) "message") w)
      as [(v & Hv & Hg) | (e & Hg)].
    + rewrite (post_message_replied groq req v w _ Ht Hg). cbn [snd].
      read_since. eexists. split; [reflexivity|].
      right; right. exists v. split; [exact Hv | reflexivity].
    + rewrite (post_message_failed groq req _ w _ Ht Hg). cbn [snd].
      read_since. eexists. split; [reflexivity|]. right; left. reflexivity.
  - rewrite (post_message_invalid groq req w Ht). cbn [snd].
    read_since. eexists. split; [reflexivity|]. left. reflexivity.
Qed.

(** The one response of the vision route is the validation error, the
    generic failure, or a 200 whose [analysis] is truthy. *)
Lemma post_analyze_responses
    (groq : ChatParams -> Outcome) (req : Request) (w : World) :
  exists r,
    responses (since w (snd (post_analyze groq req w))) = [r] /\
    (r = no_image_uploaded \/ r = vision_failure \/
     exists v, toBoolean v = true /\
       r = mkResponse 200
             (JObject {[ "analysis" := v; "timestamp" := JString (clock w) ]})).
Proof.
  destruct (req_file req) as [file|] eqn:Hfile.
  - destruct (encode_cases (path file) w)
      as [(f & _ & _ & He) | (e & _ & He)].
    + destruct (analyze_cases groq (Base64.encode (data f))
                  (orElse (prop (req_body req) "prompt") default_prompt)
                  (w +> [ReadFile (path file)]))
        as [(v & Hv & Ha) | (e & Ha)].
      * rewrite (post_analyze_replied groq req file _ v w _ _ Hfile He Ha).
        cbn [snd]. read_since. eexists. split; [reflexivity|].
        right; right. exists v. split; [exact Hv | reflexivity].
      * rewrite (post_analyze_failed groq req file _ _ w _ _ Hfile He Ha).
        cbn [snd]. read_since. eexists. split; [reflexivity|].
        right; left. reflexivity.
    + rewrite (post_analyze_encode_failed groq req file e w _ Hfile He).
      cbn [snd]. read_since. eexists. split; [reflexivity|].
      right; left. reflexivity.
  - rewrite (post_analyze_no_file groq req w Hfile). cbn [snd].
    read_since. eexists. split; [reflexivity|]. left. reflexivity.
Qed.

(** C9.  Neither client ever returns the empty string: what it returns is
    truthy.  In particular a first candidate whose content is the empty
    string is replaced by the placeholder.  Hence every 200 response of the
    text route carries a [reply], and every 200 response of the vision
    route an [analysis], that is not the empty string. *)
Theorem C9_reply_never_empty (groq : ChatParams -> Outcome) :
  (forall (prompt v : JsValue) (w w1 : World),
     generateGroqResponse groq prompt w = (Returned v, w1) ->
     toBoolean v = true /\ v <> JString "") /\
  (forall (b : string) (prompt v : JsValue) (w w1 : World),
     analyzeImage groq b prompt w = (Returned v, w1) ->
     toBoolean v = true /\ v <> JString "") /\
  (forall (prompt : JsValue) (w : World),
     groq (chat_params prompt) = Resolve (completion_with (JString "")) ->
     fst (generateGroqResponse groq prompt w) =
       Returned (JString "No response generated.")) /\
  (forall (b : string) (prompt : JsValue) (w : World),
     groq (vision_params b (default_param prompt default_prompt)) =
       Resolve (completion_with (JString "")) ->
     fst (analyzeImage groq b prompt w) =
       Returned (JString "No analysis generated.")) /\
  (forall (req : Request) (w : World) (r : Response),
     In r (responses (since w (snd (post_message groq req w)))) ->
     res_status r = 200%Z ->
     exists o reply,
       res_body r = JObject o /\ o !! "reply" = Some reply /\
       toBoolean reply = true /\ reply <> JString "") /\
  (forall (req : Request) (w : World) (r : Response),
     In r (responses (since w (snd (post_analyze groq req w)))) ->
     res_status r = 200%Z ->
     exists o analysis,
       res_body r = JObject o /\ o !! "analysis" = Some analysis /\
       toBoolean analysis = true /\ analysis <> JString "").
Proof.
  repeat apply conj.
  - intros prompt v w w1 H.
    destruct (generate_cases groq prompt w) as [(v' & Hv & Hg) | (e & Hg)];
      rewrite Hg in H; [|discriminate].
    injection H as <- _. split; [exact Hv | now apply truthy_not_empty].
  - intros b prompt v w w1 H.
    destruct (analyze_cases groq b prompt w) as [(v' & Hv & Hg) | (e & Hg)];
      rewrite Hg in H; [|discriminate].
    injection H as <- _. split; [exact Hv | now apply truthy_not_empty].
  - intros prompt w Hg.
    now rewrite (generate_resolved groq prompt _ (JString "") w Hg eq_refl).
  - intros b prompt w Hg.
    now rewrite (analyze_resolved groq b prompt _ (JString "") w Hg eq_refl).
  - intros req w r Hin Hs.
    destruct (post_message_responses groq req w)
      as (r' & Hr & [-> | [-> | (v & Hv & ->)]]);
      rewrite Hr in Hin; destruct Hin as [<- | []]; try discriminate Hs.
    eexists _, v. split; [reflexivity|].
    split; [reflexivity|]. split; [exact Hv | now apply truthy_not_empty].
  - intros req w r Hin Hs.
    destruct (post_analyze_responses groq req w)
      as (r' & Hr & [-> | [-> | (v & Hv & ->)]]);
      rewrite Hr in Hin; destruct Hin as [<- | []]; try discriminate Hs.
    eexists _, v. split; [reflexivity|].
    split; [reflexivity|]. split; [exact Hv | now apply truthy_not_empty].
Qed.

Lemma C9_reply_never_empty_witness :
  fst (generateGroqResponse (Sample.answering (JString "")) (JString "hello")
         Sample.world) = Returned (JString "No response generated.") /\
  JString "No response generated." <> JString "".
Proof.
  destruct (C9_reply_never_empty (Sample.answering (JString "")))
    as (Htruthy & _ & Hempty & _).
  pose proof (Hempty (JString "hello") Sample.world eq_refl) as H.
  split; [exact H|].
  destruct (generateGroqResponse (Sample.answering (JString ""))
              (JString "hello") Sample.world) as [r w1] eqn:E.
  cbn [fst] in H. subst r.
  exact (proj2 (Htruthy _ _ _ _ E)).
Defined.

(** ** The encoder *)

(** C8.  When the file at [p] can be read, the encoder returns the base64
    text of all of its bytes (decoding the text gives the file's content
    back) in the call itself: the read is the only effect and nothing is
    left with the event loop.  When [fs.readFileSync] throws, the encoder
    throws that same error; the vision route catches it and answers with
    the generic [500 { error: "Failed to analyze image" }]. *)
Theorem C8_encoder_reads_whole_file
    (groq : ChatParams -> Outcome) (p : string) (w : World) :
  (forall f : File,
     files w !! p = Some f -> readable f = true ->
     encodeImageToBase64 p w =
       (Returned (Base64.encode (data f)), w +> [ReadFile p]) /\
     Base64.decode (Base64.encode (data f)) = Some (data f) /\
     pending (snd (encodeImageToBase64 p w)) = pending w) /\
  (forall (e : JsError) (w1 : World),
     readFileSync p w = (Thrown e, w1) ->
     encodeImageToBase64 p w = (Thrown e, w1) /\
     forall (req : Request) (file : UploadedFile),
       req_file req = Some file -> path file = p ->
       post_analyze groq req w =
         (Returned tt,
          w1 +> [ConsoleError "Vision route error:" e;
                 Respond (mkResponse 500 (error_body "Failed to analyze image"))]) /\
       responses (since w (snd (post_analyze groq req w))) =
         [mkResponse 500 (error_body "Failed to analyze image")]).
Proof.
  split.
  - intros f Hf Hr. rewrite (encode_ok p f w Hf Hr).
    split; [reflexivity|]. split; [apply Base64Facts.decode_encode|].
    reflexivity.
  - intros e w1 Hread.
    assert (He : encodeImageToBase64 p w = (Thrown e, w1))
      by (unfold encodeImageToBase64, bind; now rewrite Hread).
    split; [exact He|]. intros req file Hfile <-.
    rewrite (post_analyze_encode_failed groq req file e w w1 Hfile He).
    split; [reflexivity|]. cbn [snd].
    destruct (encode_cases (path file) w)
      as [(f & _ & _ & Hf) | (e' & _ & Hf)]; rewrite Hf in He;
      [discriminate|].
    injection He as <- <-. read_since. reflexivity.
Qed.

Lemma C8_encoder_reads_whole_file_witness :
  fst (encodeImageToBase64 "uploads/3f2a" Sample.world) =
    Returned "iVBORw0KGgo=" /\
  responses (since Sample.empty_world
    (snd (post_analyze Sample.failing
            (Sample.vision_request (JString "describe")) Sample.empty_world))) =
    [mkResponse 500 (error_body "Failed to analyze image")].
Proof.
  split.
  - destruct (C8_encoder_reads_whole_file Sample.failing "uploads/3f2a"
                Sample.world) as (Hok & _).
    destruct (Hok (mkFile Sample.png true true) eq_refl eq_refl) as (-> & _).
    reflexivity.
  - destruct (C8_encoder_reads_whole_file Sample.failing "uploads/3f2a"
                Sample.empty_world) as (_ & Herr).
    destruct (Herr (ENOENT "open" "uploads/3f2a")
                (Sample.empty_world +> [ReadFile "uploads/3f2a"]) eq_refl)
      as (_ & Hroute).
    exact (proj2 (Hroute (Sample.vision_request (JString "describe"))
                    Sample.upload eq_refl eq_refl)).
Defined.

(** * Further properties of the pipeline *)

(** ** Every path of the two routes *)

Lemma append_append (w : World) (a b : list Event) :
  w +> a +> b = w +> (a ++ b).
Proof. unfold with_trace. cbn. now rewrite app_assoc. Qed.

Lemma first_choice_content_first (completion c : JsValue) (w : World) :
  first_candidate_content completion c ->
  first_choice_content completion w = (Returned c, w).
Proof.
  intros [o ch m rest Hch Hm].
  cbv [first_choice_content bind member first ret].
  rewrite Hch. cbn. now rewrite Hm.
Qed.

Lemma first_choice_content_no_list (completion : JsValue) (w : World) :
  no_choices_list completion = true ->
  exists cause, err_name cause = "TypeError" /\
    first_choice_content completion w = (Thrown cause, w).
Proof.
  intros H. cbv [first_choice_content bind member first ret throw].
  destruct completion as [| |b|x|s|items|o]; cbn in H; try discriminate;
    try (eexists; split; [|reflexivity]; reflexivity).
  destruct (prop o "choices"); try discriminate;
    eexists; (split; [|reflexivity]); reflexivity.
Qed.

(** The text route, path by path: the world the handler leaves. *)
Lemma post_message_paths
    (groq : ChatParams -> Outcome) (req : Request) (w : World) :
  let message := prop (req_body req) "message" in
  (toBoolean message = false /\
   snd (post_message groq req w) = w +> [Respond message_required]) \/
  (toBoolean message = true /\ exists cause,
   snd (post_message groq req w) =
     w +> [Create (chat_params message);
           ConsoleError "❌ Groq API Error:" cause;
           ConsoleError "Chat error:" (Error "Failed to generate AI response");
           Respond chat_failure]) \/
  (toBoolean message = true /\ exists v, toBoolean v = true /\
   fst (generateGroqResponse groq message w) = Returned v /\
   snd (post_message groq req w) =
     w +> [Create (chat_params message);
           Respond (mkResponse 200
             (JObject {[ "reply" := v; "timestamp" := JString (clock w) ]}))]).
Proof.
  intros message. subst message.
  destruct (toBoolean (prop (req_body req) "message")) eqn:Ht.
  - destruct (generate_cases groq (prop (req_body req) "message") w)
      as [(v & Hv & Hg) | (e & Hg)].
    + right; right. split; [reflexivity|]. exists v.
      rewrite (post_message_replied groq req v w _ Ht Hg), Hg. cbn [fst snd].
      now rewrite append_append.
    + right; left. split; [reflexivity|]. exists e.
      rewrite (post_message_failed groq req _ w _ Ht Hg). cbn [snd].
      now rewrite append_append.
  - left. split; [reflexivity|].
    now rewrite (post_message_invalid groq req w Ht).
Qed.

(** The vision route, path by path. *)
Lemma post_analyze_paths
    (groq : ChatParams -> Outcome) (req : Request) (w : World) :
  let prompt := orElse (prop (req_body req) "prompt") default_prompt in
  (req_file req = None /\
   snd (post_analyze groq req w) = w +> [Respond no_image_uploaded]) \/
  (exists file e,
   req_file req = Some file /\ read_error w (path file) = Some e /\
   snd (post_analyze groq req w) =
     w +> [ReadFile (path file);
           ConsoleError "Vision route error:" e;
           Respond vision_failure]) \/
  (exists file f cause,
   req_file req = Some file /\ files w !! path file = Some f /\
   readable f = true /\
   snd (post_analyze groq req w) =
     w +> [ReadFile (path file);
           Create (vision_params (Base64.encode (data f)) prompt);
           ConsoleError "❌ Vision API Error:" cause;
           ConsoleError "Vision route error:" (Error "Failed to analyze image");
           Respond vision_failure]) \/
  (exists file f v,
   req_file req = Some file /\ files w !! path file = Some f /\
   readable f = true /\ toBoolean v = true /\
   snd (post_analyze groq req w) =
     with_pending (pending w ++ [path file]) w
     +> [ReadFile (path file);
         Create (vision_params (Base64.encode (data f)) prompt);
         Unlink (path file);
         Respond (mkResponse 200
           (JObject {[ "analysis" := v; "timestamp" := JString (clock w) ]}))]).
Proof.
  intros prompt. subst prompt.
  destruct (req_file req) as [file|] eqn:Hfile.
  - destruct (encode_cases (path file) w)
      as [(f & Hf & Hr & He) | (e & Herr & He)].
    + destruct (analyze_cases groq (Base64.encode (data f))
                  (orElse (prop (req_body req) "prompt") default_prompt)
                  (w +> [ReadFile (path file)]))
        as [(v & Hv & Ha) | (e & Ha)]; rewrite route_prompt_defined in Ha.
      * right; right; right. exists file, f, v.
        rewrite (post_analyze_replied groq req file _ v w _ _ Hfile He Ha).
        cbn [snd]. repeat split; try assumption.
        unfold with_trace, with_pending. cbn. now rewrite <- !app_assoc.
      * right; right; left. exists file, f, e.
        rewrite (post_analyze_failed groq req file _ _ w _ _ Hfile He Ha).
        cbn [snd]. repeat split; try assumption.
        now rewrite !append_append.
    + right; left. exists file, e.
      rewrite (post_analyze_encode_failed groq req file e w _ Hfile He).
      cbn [snd]. repeat split; try assumption. now rewrite append_append.
  - left. split; [reflexivity|].
    now rewrite (post_analyze_no_file groq req w Hfile).
Qed.

(** X1.  Each route answers every request exactly once, with status 200,
    400 or 500, and its handler never lets an exception escape: whatever
    the request, the filesystem and the endpoint, there is no request left
    without a response and none answered twice. *)
Theorem every_request_answered_once
    (groq : ChatParams -> Outcome) (req : Request) (w : World) :
  (fst (post_message groq req w) = Returned tt /\
   exists r, responses (since w (snd (post_message groq req w))) = [r] /\
     (res_status r = 200 \/ res_status r = 400 \/ res_status r = 500)%Z) /\
  (fst (post_analyze groq req w) = Returned tt /\
   exists r, responses (since w (snd (post_analyze groq req w))) = [r] /\
     (res_status r = 200 \/ res_status r = 400 \/ res_status r = 500)%Z).
Proof.
  split; (split; [first [apply post_message_returns
                        | apply post_analyze_returns]|]).
  - destruct (post_message_responses groq req w)
      as (r & Hr & [-> | [-> | (v & _ & ->)]]);
      eexists; (split; [exact Hr|]); cbn; auto.
  - destruct (post_analyze_responses groq req w)
      as (r & Hr & [-> | [-> | (v & _ & ->)]]);
      eexists; (split; [exact Hr|]); cbn; auto.
Qed.


(** X3.  On the text route, when the endpoint's first candidate carries a
    truthy content, the response is exactly [200 { reply, timestamp }] with
    that content as [reply] and the current time as [timestamp]; the
    outbound call and the response are the handler's only effects.  Further
    candidates and any other field of the completion are ignored. *)
Theorem text_reply_is_first_candidate
    (groq : ChatParams -> Outcome) (req : Request) (completion c : JsValue)
    (w : World) :
  toBoolean (prop (req_body req) "message") = true ->
  groq (chat_params (prop (req_body req) "message")) = Resolve completion ->
  first_candidate_content completion c ->
  toBoolean c = true ->
  post_message groq req w =
    (Returned tt,
     w +> [Create (chat_params (prop (req_body req) "message"));
           Respond (mkResponse 200
             (JObject {[ "reply" := c; "timestamp" := JString (clock w) ]}))]).
Proof.
  intros Ht Hg Hc Hv.
  pose proof (generate_resolved groq _ completion c w Hg) as Hr.
  rewrite (first_choice_content_first completion c w Hc) in Hr.
  specialize (Hr eq_refl). rewrite (or_truthy c _ Hv) in Hr.
  rewrite (post_message_replied groq req c w _ Ht Hr).
  now rewrite append_append.
Qed.

Lemma text_reply_is_first_candidate_witness :
  post_message (Sample.answering (JString "hi"))
    (Sample.text_request (JString "hello")) Sample.world =
  (Returned tt,
   Sample.world
   +> [Create (chat_params (JString "hello"));
       Respond (mkResponse 200
         (JObject {[ "reply" := JString "hi";
                     "timestamp" := JString "2025-01-01T00:00:00.000Z" ]}))]).
Proof.
  apply (text_reply_is_first_candidate (Sample.answering (JString "hi"))
           (Sample.text_request (JString "hello"))
           (completion_with (JString "hi")) (JString "hi") Sample.world
           eq_refl eq_refl).
  - exact (first_content
             {[ "choices" :=
                  JArray [JObject {[ "message" :=
                    JObject {[ "content" := JString "hi" ]} ]}] ]}
             {[ "message" := JObject {[ "content" := JString "hi" ]} ]}
             {[ "content" := JString "hi" ]} [] eq_refl eq_refl).
  - reflexivity.
Defined.

Section VisionReply.

Variable groq : ChatParams -> Outcome.
Variables (req : Request) (file : UploadedFile) (f : File) (w : World).
Variables (completion c : JsValue).

Hypothesis attached : req_file req = Some file.
Hypothesis stored : files w !! path file = Some f.
Hypothesis can_read : readable f = true.
Hypothesis idle : pending w = [].
Hypothesis resolved :
  groq (vision_params (Base64.encode (data f))
          (orElse (prop (req_body req) "prompt") default_prompt)) =
  Resolve completion.
Hypothesis candidate : first_candidate_content completion c.
Hypothesis truthy : toBoolean c = true.

Lemma analyze_returns_candidate :
  fst (analyzeImage groq (Base64.encode (data f))
         (orElse (prop (req_body req) "prompt") default_prompt)
         (w +> [ReadFile (path file)])) = Returned c.
Proof.
  pose proof resolved as Hg. rewrite <- route_prompt_defined in Hg.
  pose proof (analyze_resolved groq _ _ completion c
                (w +> [ReadFile (path file)]) Hg) as Hr.
  rewrite (first_choice_content_first completion c _ candidate) in Hr.
  rewrite (Hr eq_refl). cbn [fst]. now rewrite (or_truthy c _ truthy).
Qed.

(** X4.  On the vision route, when the upload can be read and removed and
    the endpoint's first candidate carries a truthy content, the handler
    reads the upload, makes the outbound call, issues the unlink and then
    responds [200 { analysis, timestamp }] with that content, in this
    order; once the event loop is idle the upload is gone, every other
    file is as before, and nothing was written to the console. *)
Theorem vision_reply_then_cleanup :
  removable f = true ->
  since w (serve (post_analyze groq) req w) =
    [ReadFile (path file);
     Create (vision_params (Base64.encode (data f))
               (orElse (prop (req_body req) "prompt") default_prompt));
     Unlink (path file);
     Respond (mkResponse 200
       (JObject {[ "analysis" := c; "timestamp" := JString (clock w) ]}))] /\
  files (serve (post_analyze groq) req w) = delete (path file) (files w) /\
  pending (serve (post_analyze groq) req w) = [].
Proof.
  intros Hrm.
  destruct (upload_removed_after_reply groq req file f w attached stored
              can_read idle c analyze_returns_candidate Hrm) as (Hs & Hf).
  rewrite route_prompt_defined in Hs. split; [|split; [exact Hf|]].
  - rewrite <- Hs. unfold serve, since. f_equal.
    destruct (post_analyze_paths groq req w)
      as [(Hn & _) | [(fl & e & Hfl & He & _)
          | [(fl & f' & e & _ & _ & _ & Hw)
            | (fl & f' & v & Hfl & _ & _ & _ & Hw)]]].
    + congruence.
    + rewrite attached in Hfl. injection Hfl as <-.
      unfold read_error in He. now rewrite stored, can_read in He.
    + rewrite Hw in Hs. rewrite since_one in Hs. discriminate.
    + rewrite Hw. rewrite attached in Hfl. injection Hfl as <-.
      rewrite (settle_single (path file)) by (cbn; now rewrite idle).
      unfold complete_unlink. cbn [files with_pending with_trace].
      now rewrite stored, Hrm.
  - destruct (post_analyze_paths groq req w)
      as [(Hn & _) | [(fl & e & Hfl & He & _)
          | [(fl & f' & e & _ & _ & _ & Hw)
            | (fl & f' & v & Hfl & _ & _ & _ & Hw)]]].
    + congruence.
    + rewrite attached in Hfl. injection Hfl as <-.
      unfold read_error in He. now rewrite stored, can_read in He.
    + rewrite Hw in Hs. rewrite since_one in Hs. discriminate.
    + unfold serve. rewrite Hw. rewrite attached in Hfl.
      injection Hfl as <-.
      rewrite (settle_single (path file)) by (cbn; now rewrite idle).
      unfold complete_unlink. cbn [files with_pending with_trace].
      now rewrite stored, Hrm.
Qed.

(** X5.  When the process may not remove the upload, the outcome for the
    client is the same [200 { analysis, timestamp }]: the failed unlink is
    written to the console after the response was sent, and the upload
    stays on the filesystem. *)
Theorem unlink_failure_only_logged :
  removable f = false ->
  since w (serve (post_analyze groq) req w) =
    [ReadFile (path file);
     Create (vision_params (Base64.encode (data f))
               (orElse (prop (req_body req) "prompt") default_prompt));
     Unlink (path file);
     Respond (mkResponse 200
       (JObject {[ "analysis" := c; "timestamp" := JString (clock w) ]}));
     ConsoleError "Failed to delete temp file:" (EPERM "unlink" (path file))] /\
  files (serve (post_analyze groq) req w) = files w.
Proof.
  intros Hrm.
  destruct (upload_kept_when_unlink_fails groq req file f w attached stored
              can_read idle c analyze_returns_candidate Hrm) as (Hs & Hf).
  rewrite route_prompt_defined in Hs. now split.
Qed.

End VisionReply.

Lemma sample_candidate (c : JsValue) :
  first_candidate_content (completion_with c) c.
Proof.
  exact (first_content
           {[ "choices" :=
                JArray [JObject {[ "message" := JObject {[ "content" := c ]} ]}] ]}
           {[ "message" := JObject {[ "content" := c ]} ]}
           {[ "content" := c ]} [] eq_refl eq_refl).
Qed.

Lemma vision_reply_then_cleanup_witness :
  files (serve (post_analyze (Sample.answering (JString "a pixel")))
           (Sample.vision_request (JString "describe")) Sample.world) =
    delete "uploads/3f2a" (files Sample.world) /\
  responses (since Sample.world
    (serve (post_analyze (Sample.answering (JString "a pixel")))
       (Sample.vision_request (JString "describe")) Sample.world)) =
    [mkResponse 200
       (JObject {[ "analysis" := JString "a pixel";
                   "timestamp" := JString "2025-01-01T00:00:00.000Z" ]})].
Proof.
  destruct (vision_reply_then_cleanup (Sample.answering (JString "a pixel"))
              (Sample.vision_request (JString "describe")) Sample.upload
              (mkFile Sample.png true true) Sample.world
              (completion_with (JString "a pixel")) (JString "a pixel")
              eq_refl eq_refl eq_refl eq_refl eq_refl
              (sample_candidate (JString "a pixel")) eq_refl eq_refl)
    as (Hs & Hf & _).
  split; [exact Hf|]. rewrite Hs. reflexivity.
Defined.

Lemma unlink_failure_only_logged_witness :
  let w := mkWorld {[ "uploads/3f2a" := mkFile Sample.png true false ]}
             "2025-01-01T00:00:00.000Z" [] [] in
  files (serve (post_analyze (Sample.answering (JString "a pixel")))
           (Sample.vision_request (JString "describe")) w) = files w /\
  responses (since w
    (serve (post_analyze (Sample.answering (JString "a pixel")))
       (Sample.vision_request (JString "describe")) w)) =
    [mkResponse 200
       (JObject {[ "analysis" := JString "a pixel";
                   "timestamp" := JString "2025-01-01T00:00:00.000Z" ]})].
Proof.
  intros w.
  destruct (unlink_failure_only_logged (Sample.answering (JString "a pixel"))
              (Sample.vision_request (JString "describe")) Sample.upload
              (mkFile Sample.png true false) w
              (completion_with (JString "a pixel")) (JString "a pixel")
              eq_refl eq_refl eq_refl eq_refl eq_refl
              (sample_candidate (JString "a pixel")) eq_refl eq_refl)
    as (Hs & Hf).
  split; [exact Hf|]. rewrite Hs. reflexivity.
Defined.

(** X6.  A completion without a [choices] list ([choices] missing or
    [null], or no completion object at all) is not given the placeholder:
    indexing it raises a [TypeError] inside the client, which logs it and
    throws the generic error, and the text route answers
    [500 { error: "Failed to process your message" }]. *)
Theorem completion_without_choices_is_failure
    (groq : ChatParams -> Outcome) (completion : JsValue) :
  no_choices_list completion = true ->
  (forall (prompt : JsValue) (w : World),
     groq (chat_params prompt) = Resolve completion ->
     exists cause, err_name cause = "TypeError" /\
       generateGroqResponse groq prompt w =
         (Thrown (Error "Failed to generate AI response"),
          w +> [Create (chat_params prompt);
                ConsoleError "❌ Groq API Error:" cause])) /\
  (forall (b : string) (prompt : JsValue) (w : World),
     groq (vision_params b (default_param prompt default_prompt)) =
       Resolve completion ->
     exists cause, err_name cause = "TypeError" /\
       analyzeImage groq b prompt w =
         (Thrown (Error "Failed to analyze image"),
          w +> [Create (vision_params b (default_param prompt default_prompt));
                ConsoleError "❌ Vision API Error:" cause])) /\
  (forall (req : Request) (w : World),
     toBoolean (prop (req_body req) "message") = true ->
     groq (chat_params (prop (req_body req) "message")) = Resolve completion ->
     responses (since w (snd (post_message groq req w))) = [chat_failure]).
Proof.
  intros Hno. repeat apply conj.
  - intros prompt w Hg.
    destruct (first_choice_content_no_list completion w Hno)
      as (cause & Hname & Hc).
    exists cause. split; [exact Hname|].
    apply generate_malformed with completion; [exact Hg | now rewrite Hc].
  - intros b prompt w Hg.
    destruct (first_choice_content_no_list completion w Hno)
      as (cause & Hname & Hc).
    exists cause. split; [exact Hname|].
    apply analyze_malformed with completion; [exact Hg | now rewrite Hc].
  - intros req w Ht Hg.
    destruct (first_choice_content_no_list completion w Hno)
      as (cause & _ & Hc).
    rewrite (post_message_failed groq req _ w _ Ht
               (generate_malformed groq _ completion cause w Hg
                  ltac:(now rewrite Hc))).
    cbn [snd]. now rewrite since_two.
Qed.

Lemma completion_without_choices_is_failure_witness :
  responses (since Sample.world
    (snd (post_message (fun _ => Resolve (JObject ∅))
            (Sample.text_request (JString "hello")) Sample.world))) =
  [chat_failure].
Proof.
  assert (Hno : no_choices_list (JObject ∅) = true) by reflexivity.
  destruct (completion_without_choices_is_failure
              (fun _ => Resolve (JObject ∅)) (JObject ∅) Hno)
    as (_ & _ & Hroute).
  exact (Hroute (Sample.text_request (JString "hello")) Sample.world
           eq_refl eq_refl).
Defined.

(** X7.  The only error either client ever throws is its own generic one,
    [Error("Failed to generate AI response")] for the text client and
    [Error("Failed to analyze image")] for the vision client; by then the
    cause has been written to the console, once, after the one outbound
    call, and nothing else has happened. *)
Theorem clients_throw_only_generic_error (groq : ChatParams -> Outcome) :
  (forall (prompt : JsValue) (e : JsError) (w w1 : World),
     generateGroqResponse groq prompt w = (Thrown e, w1) ->
     e = Error "Failed to generate AI response" /\
     exists cause,
       w1 = w +> [Create (chat_params prompt);
                  ConsoleError "❌ Groq API Error:" cause]) /\
  (forall (b : string) (prompt : JsValue) (e : JsError) (w w1 : World),
     analyzeImage groq b prompt w = (Thrown e, w1) ->
     e = Error "Failed to analyze image" /\
     exists cause,
       w1 = w +> [Create (vision_params b (default_param prompt default_prompt));
                  ConsoleError "❌ Vision API Error:" cause]).
Proof.
  split.
  - intros prompt e w w1 H.
    destruct (generate_cases groq prompt w) as [(v & _ & Hg) | (cause & Hg)];
      rewrite Hg in H; [discriminate|].
    injection H as <- <-. split; [reflexivity | now exists cause].
  - intros b prompt e w w1 H.
    destruct (analyze_cases groq b prompt w) as [(v & _ & Hg) | (cause & Hg)];
      rewrite Hg in H; [discriminate|].
    injection H as <- <-. split; [reflexivity | now exists cause].
Qed.

Lemma clients_throw_only_generic_error_witness :
  fst (generateGroqResponse Sample.failing (JString "hello") Sample.world) =
    Thrown (Error "Failed to generate AI response").
Proof.
  destruct (generateGroqResponse Sample.failing (JString "hello") Sample.world)
    as [[v|e] w1] eqn:E; [discriminate E|].
  destruct (proj1 (clients_throw_only_generic_error Sample.failing)
              (JString "hello") e Sample.world w1 E) as (-> & _).
  reflexivity.
Defined.

(** ** The filesystem *)

(** X8.  The text route never touches the filesystem.  The vision handler
    reads and unlinks nothing but the path of the attached upload and does
    not change the filesystem itself; once the event loop is idle every
    file other than the upload is as it was. *)
Theorem routes_touch_only_the_upload
    (groq : ChatParams -> Outcome) (req : Request) (w : World) :
  (files (snd (post_message groq req w)) = files w /\
   pending (snd (post_message groq req w)) = pending w /\
   reads (since w (snd (post_message groq req w))) = [] /\
   unlinks (since w (snd (post_message groq req w))) = []) /\
  (files (snd (post_analyze groq req w)) = files w /\
   forall p : string,
     In p (reads (since w (snd (post_analyze groq req w)))
           ++ unlinks (since w (snd (post_analyze groq req w)))) ->
     exists file, req_file req = Some file /\ path file = p) /\
  (forall p : string,
     pending w = [] ->
     (forall file, req_file req = Some file -> path file <> p) ->
     files (serve (post_analyze groq) req w) !! p = files w !! p).
Proof.
  repeat apply conj.
  - destruct (post_message_paths groq req w)
      as [(_ & ->) | [(_ & e & ->) | (_ & v & _ & _ & ->)]]; reflexivity.
  - destruct (post_message_paths groq req w)
      as [(_ & ->) | [(_ & e & ->) | (_ & v & _ & _ & ->)]]; reflexivity.
  - destruct (post_message_paths groq req w)
      as [(_ & ->) | [(_ & e & ->) | (_ & v & _ & _ & ->)]];
      now rewrite since_one.
  - destruct (post_message_paths groq req w)
      as [(_ & ->) | [(_ & e & ->) | (_ & v & _ & _ & ->)]];
      now rewrite since_one.
  - destruct (post_analyze_paths groq req w)
      as [(_ & ->) | [(file & e & _ & _ & ->)
          | [(file & f & e & _ & _ & _ & ->)
            | (file & f & v & _ & _ & _ & _ & ->)]]]; reflexivity.
  - intros p.
    destruct (post_analyze_paths groq req w)
      as [(_ & ->) | [(file & e & Hfile & _ & ->)
          | [(file & f & e & Hfile & _ & _ & ->)
            | (file & f & v & Hfile & _ & _ & _ & ->)]]];
      try rewrite since_one; try read_since; cbn; intros Hin;
      [ destruct Hin | exists file; intuition.. ].
  - intros p Hidle Hother. unfold serve.
    destruct (post_analyze_paths groq req w)
      as [(_ & ->) | [(file & e & _ & _ & ->)
          | [(file & f & e & _ & _ & _ & ->)
            | (file & f & v & Hfile & Hf & _ & _ & ->)]]];
      try (rewrite settle_idle by (cbn; exact Hidle); reflexivity).
    rewrite (settle_single (path file)) by (cbn; now rewrite Hidle).
    unfold complete_unlink. cbn [files with_pending with_trace].
    rewrite Hf. destruct (removable f); [|reflexivity].
    cbn. apply lookup_delete_ne. now apply Hother.
Qed.

(** ** The payload *)

Lemma digit_in_alphabet (n : N) :
  In (Base64.digit n) Base64.alphabet \/ Base64.digit n = "="%char.
Proof.
  unfold Base64.digit.
  destruct (nth_in_or_default (N.to_nat n) Base64.alphabet "="%char); auto.
Qed.

Lemma encode_shape_bounded (n : nat) (bs : list byte) :
  length bs < n ->
  String.length (Base64.encode bs) = 4 * Nat.div (length bs + 2) 3 /\
  Forall (fun ch => In ch Base64.alphabet \/ ch = "="%char)
    (list_ascii_of_string (Base64.encode bs)).
Proof.
  revert bs. induction n as [|n IH]; intros bs Hn; [lia|].
  destruct bs as [|a [|b [|c rest]]].
  - split; [reflexivity | apply List.Forall_nil].
  - split; [reflexivity|].
    cbn [Base64.encode list_ascii_of_string].
    repeat (apply List.Forall_cons;
            [first [apply digit_in_alphabet | right; reflexivity]|]).
    apply List.Forall_nil.
  - split; [reflexivity|].
    cbn [Base64.encode list_ascii_of_string].
    repeat (apply List.Forall_cons;
            [first [apply digit_in_alphabet | right; reflexivity]|]).
    apply List.Forall_nil.
  - destruct (IH rest) as (Hlen & Hall); [cbn [length] in Hn; lia|].
    cbn [Base64.encode list_ascii_of_string String.length length].
    split.
    + rewrite Hlen.
      replace (S (S (S (length rest))) + 2) with (1 * 3 + (length rest + 2))
        by lia.
      rewrite Nat.div_add_l by lia. lia.
    + repeat (apply List.Forall_cons; [apply digit_in_alphabet|]). exact Hall.
Qed.

(** X9.  What the encoder returns for a readable file has four characters
    for every three bytes of the file, the last group padded:
    [4 * ceil(n / 3)] characters for [n] bytes; every one of them is a
    letter, a digit, [+], [/] or the padding [=]. *)
Theorem payload_shape (p : string) (f : File) (w : World) :
  files w !! p = Some f ->
  readable f = true ->
  exists payload,
    fst (encodeImageToBase64 p w) = Returned payload /\
    String.length payload = 4 * Nat.div (length (data f) + 2) 3 /\
    Forall (fun ch => In ch Base64.alphabet \/ ch = "="%char)
      (list_ascii_of_string payload).
Proof.
  intros Hf Hr. exists (Base64.encode (data f)).
  rewrite (encode_ok p f w Hf Hr). split; [reflexivity|].
  apply (encode_shape_bounded (S (length (data f)))). lia.
Qed.

Lemma payload_shape_witness :
  exists payload,
    fst (encodeImageToBase64 "uploads/3f2a" Sample.world) = Returned payload /\
    String.length payload = 12.
Proof.
  destruct (payload_shape "uploads/3f2a" (mkFile Sample.png true true)
              Sample.world eq_refl eq_refl) as (payload & H & Hlen & _).
  exists payload. split; [exact H | exact Hlen].
Defined.

(** X10.  Two readable files get the same payload only when they hold the
    same bytes: the encoder never maps different uploads to one text. *)
Theorem distinct_uploads_distinct_payloads
    (p1 p2 : string) (f1 f2 : File) (w1 w2 : World) :
  files w1 !! p1 = Some f1 -> readable f1 = true ->
  files w2 !! p2 = Some f2 -> readable f2 = true ->
  fst (encodeImageToBase64 p1 w1) = fst (encodeImageToBase64 p2 w2) ->
  data f1 = data f2.
Proof.
  intros H1 R1 H2 R2.
  rewrite (encode_ok p1 f1 w1 H1 R1), (encode_ok p2 f2 w2 H2 R2). cbn [fst].
  intros H. injection H as H. now apply Base64Facts.encode_injective.
Qed.

Lemma distinct_uploads_distinct_payloads_witness :
  data (mkFile Sample.png true true) = data (mkFile Sample.png true false).
Proof.
  apply (distinct_uploads_distinct_payloads "uploads/3f2a" "uploads/3f2a"
           (mkFile Sample.png true true) (mkFile Sample.png true false)
           Sample.world
           (mkWorld {[ "uploads/3f2a" := mkFile Sample.png true false ]}
              "2025-01-01T00:00:00.000Z" [] []));
    reflexivity.
Defined.

(** X11.  The image the model is given is the upload, byte for byte: on
    every vision request whose upload can be read, the one image reference
    sent is ["data:image/jpeg;base64,"] followed by a payload that decodes
    to exactly the content of the stored file. *)
Theorem model_receives_uploaded_bytes
    (groq : ChatParams -> Outcome) (req : Request) (file : UploadedFile)
    (f : File) (w : World) :
  req_file req = Some file ->
  files w !! path file = Some f ->
  readable f = true ->
  exists payload,
    flat_map image_urls (creates (since w (snd (post_analyze groq req w)))) =
      [("data:image/jpeg;base64," ++ payload)%string] /\
    Base64.decode payload = Some (data f).
Proof.
  intros Hfile Hf Hr. exists (Base64.encode (data f)).
  rewrite (post_analyze_creates groq req file f w Hfile Hf Hr).
  split; [reflexivity | apply Base64Facts.decode_encode].
Qed.

Lemma model_receives_uploaded_bytes_witness :
  exists payload,
    flat_map image_urls
      (creates (since Sample.world
         (snd (post_analyze Sample.failing
                 (Sample.vision_request (JString "describe")) Sample.world)))) =
      [("data:image/jpeg;base64," ++ payload)%string] /\
    Base64.decode payload = Some Sample.png.
Proof.
  exact (model_receives_uploaded_bytes Sample.failing
           (Sample.vision_request (JString "describe")) Sample.upload
           (mkFile Sample.png true true) Sample.world
           eq_refl eq_refl eq_refl).
Defined.

(** X12.  The content of the upload is not validated: an upload of zero
    bytes passes, the model is called with the bare
    ["data:image/jpeg;base64,"] as image reference, and the one response is
    not the 400. *)
Theorem empty_upload_is_dispatched
    (groq : ChatParams -> Outcome) (req : Request) (file : UploadedFile)
    (f : File) (w : World) :
  req_file req = Some file ->
  files w !! path file = Some f ->
  readable f = true ->
  data f = [] ->
  flat_map image_urls (creates (since w (snd (post_analyze groq req w)))) =
    ["data:image/jpeg;base64,"] /\
  exists r, responses (since w (snd (post_analyze groq req w))) = [r] /\
    res_status r <> 400%Z.
Proof.
  intros Hfile Hf Hr Hdata. split.
  - rewrite (post_analyze_creates groq req file f w Hfile Hf Hr), Hdata.
    reflexivity.
  - destruct (post_analyze_paths groq req w)
      as [(Hn & _) | [(fl & e & Hfl & He & _)
          | [(fl & f' & e & _ & _ & _ & ->)
            | (fl & f' & v & _ & _ & _ & _ & ->)]]].
    + congruence.
    + rewrite Hfile in Hfl. injection Hfl as <-.
      unfold read_error in He. now rewrite Hf, Hr in He.
    + rewrite since_one. eexists. split; [reflexivity | discriminate].
    + read_since. eexists. split; [reflexivity | discriminate].
Qed.

Lemma empty_upload_is_dispatched_witness :
  let w := mkWorld {[ "uploads/3f2a" := mkFile [] true true ]}
             "2025-01-01T00:00:00.000Z" [] [] in
  flat_map image_urls
    (creates (since w
       (snd (post_analyze Sample.failing
               (Sample.vision_request (JString "describe")) w)))) =
  ["data:image/jpeg;base64,"].
Proof.
  intros w.
  apply (empty_upload_is_dispatched Sample.failing
           (Sample.vision_request (JString "describe")) Sample.upload
           (mkFile [] true true) w eq_refl eq_refl eq_refl eq_refl).
Defined.

(** X13.  The default of [analyzeImage]'s own [prompt] parameter applies
    to [undefined] only: called directly with [null], the empty string or
    any other value, the client sends that value as the prompt text.  The
    route never passes [undefined], so on the route this default is never
    the one that applies. *)
Theorem analyze_default_only_for_undefined
    (groq : ChatParams -> Outcome) (b : string) (w : World) :
  flat_map prompts
    (creates (since w (snd (analyzeImage groq b JUndefined w)))) =
    [JString "What's in this image?"] /\
  (forall prompt : JsValue,
     prompt <> JUndefined ->
     flat_map prompts
       (creates (since w (snd (analyzeImage groq b prompt w)))) = [prompt]) /\
  (forall value : JsValue,
     orElse value (JString "What's in this image?") <> JUndefined).
Proof.
  repeat apply conj.
  - destruct (analyze_cases groq b JUndefined w)
      as [(v & _ & Hg) | (e & Hg)];
      rewrite Hg; cbn [snd]; now rewrite since_one.
  - intros prompt Hp.
    destruct (analyze_cases groq b prompt w) as [(v & _ & Hg) | (e & Hg)];
      rewrite Hg; cbn [snd]; rewrite since_one;
      now rewrite (default_param_defined prompt _ Hp).
  - intros value. unfold orElse.
    destruct (toBoolean value) eqn:E; [|discriminate].
    intros ->. discriminate.
Qed.

Lemma analyze_default_only_for_undefined_witness :
  flat_map prompts
    (creates (since Sample.world
       (snd (analyzeImage Sample.failing "iVBORw0KGgo=" (JString "")
               Sample.world)))) = [JString ""].
Proof.
  apply (proj1 (proj2 (analyze_default_only_for_undefined Sample.failing
                         "iVBORw0KGgo=" Sample.world)) (JString "")).
  discriminate.
Defined.

(** ** Start-up *)

(** X14.  The server starts only when [GROQ_API_KEY] is set, and not
    empty, in the environment of the process: both service modules are
    imported, and run their key check, before [dotenv.config] reads the
    [.env] file, so a key that is only in that file makes start-up throw
    ["GROQ_API_KEY environment variable is not set"].  With the key in the
    environment both clients are built with it, and the port is never
    falsy: a missing or empty [PORT] gives 5000. *)
Theorem key_must_be_in_process_environment
    (file : option (gmap string string)) (env : gmap string string) :
  (env !! "GROQ_API_KEY" = None \/ env !! "GROQ_API_KEY" = Some "" ->
   Startup.index file env =
     Thrown (Error "GROQ_API_KEY environment variable is not set")) /\
  (forall key : string,
     env !! "GROQ_API_KEY" = Some key -> key <> "" ->
     exists server,
       Startup.index file env = Returned server /\
       Startup.apiKey (Startup.chat_client server) = JString key /\
       Startup.apiKey (Startup.vision_client server) = JString key /\
       toBoolean (Startup.PORT server) = true /\
       (Startup.dotenv_config file env !! "PORT" = None \/
        Startup.dotenv_config file env !! "PORT" = Some "" ->
        Startup.PORT server = JNumber 5000)).
Proof.
  split.
  - intros H. unfold Startup.index, Startup.load_service, Startup.env_var.
    destruct H as [-> | ->]; reflexivity.
  - intros key Hkey Hne.
    unfold Startup.index, Startup.load_service, Startup.env_var at 1 2 3 4.
    rewrite Hkey.
    assert (Ht : toBoolean (JString key) = true) by now apply toBoolean_string.
    rewrite Ht. cbn [negb]. eexists. split; [reflexivity|].
    cbn [Startup.chat_client Startup.vision_client Startup.apiKey
         Startup.PORT].
    repeat split.
    + unfold orElse.
      destruct (toBoolean (Startup.env_var _ "PORT")) eqn:E;
        [exact E | reflexivity].
    + unfold Startup.env_var. intros [-> | ->]; reflexivity.
Qed.

Lemma key_must_be_in_process_environment_witness :
  Startup.index (Some {[ "GROQ_API_KEY" := "gsk_live_key" ]}) ∅ =
    Thrown (Error "GROQ_API_KEY environment variable is not set").
Proof.
  apply (key_must_be_in_process_environment
           (Some {[ "GROQ_API_KEY" := "gsk_live_key" ]}) ∅).
  left. reflexivity.
Defined.

(** * The chat window *)

Section ChatWindow.

Import Chat.

Variable API_BASE_URL : string.


Lemma answer_text_truthy (data text : JsValue) :
  answer_text data = Returned text -> toBoolean text = true.
Proof.
  unfold answer_text. destruct (read data "analysis") as [a|e]; [|discriminate].
  destruct (toBoolean a) eqn:Ha; [now intros [= <-]|].
  destruct (read data "reply") as [r|e]; [|discriminate].
  intros [= <-]. now apply or_placeholder_truthy.
Qed.

(** When the guard lets a send through, there is text to show: the
    trimmed input, or the image label. *)
Lemma userMessage_truthy (t : Times) (u : UI) :
  blocked u = false -> toBoolean (msg_text (userMessage t u)) = true.
Proof.
  unfold blocked, userMessage. cbn [msg_text]. intros H.
  apply orb_false_iff in H as [H _]. apply toBoolean_string.
  unfold str_or. destruct (String.eqb_spec (trim (input u)) "") as [E|E];
    [|exact E].
  cbn in H. apply negb_false_iff in H. now rewrite H.
Qed.

Lemma complete_message (t : Times) (u : UI) (outcome : Result JsValue)
    (now : UI) :
  exists m,
    messages (fst (complete t u outcome now)) = messages now ++ [m] /\
    msg_sender m = bot /\ toBoolean (msg_text m) = true /\
    loading (fst (complete t u outcome now)) = false /\
    input (fst (complete t u outcome now)) = input now /\
    darkMode (fst (complete t u outcome now)) = darkMode now /\
    (snd (complete t u outcome now) = [] ->
     selectedImage (fst (complete t u outcome now)) = None /\
     imagePreview (fst (complete t u outcome now)) = None) /\
    (snd (complete t u outcome now) <> [] ->
     m = errorMessage t /\
     selectedImage (fst (complete t u outcome now)) = selectedImage now /\
     imagePreview (fst (complete t u outcome now)) = imagePreview now).
Proof.
  unfold complete. destruct outcome as [data|e].
  - destruct (answer_text data) as [text|e] eqn:Ha.
    + exists (botMessage t u text). cbn.
      pose proof (answer_text_truthy data text Ha). intuition congruence.
    + exists (errorMessage t). cbn. intuition congruence.
  - exists (errorMessage t). cbn. intuition congruence.
Qed.





End ChatWindow.

Section ChatWindowSamples.

Import Chat.



End ChatWindowSamples.

(** ** The chat window and the backend together *)






(** X19.  What the chat window shows for each response of the backend: for
    a 200 it is the [reply], or the [analysis], as sent; for the 400 and
    the 500 it is ["No response"]: the backend's error texts are never
    shown to the user. *)
Theorem backend_errors_show_as_no_response
    (groq : ChatParams -> Outcome) (req : Request) (w : World) (r : Response) :
  In r (responses (since w (snd (post_message groq req w)))) \/
  In r (responses (since w (snd (post_analyze groq req w)))) ->
  (res_status r = 200%Z ->
   exists answer, toBoolean answer = true /\
     Chat.answer_text (res_body r) = Returned answer /\
     (res_body r =
        JObject {[ "reply" := answer; "timestamp" := JString (clock w) ]} \/
      res_body r =
        JObject {[ "analysis" := answer; "timestamp" := JString (clock w) ]})) /\
  (res_status r <> 200%Z ->
   Chat.answer_text (res_body r) = Returned (JString "No response")).
Proof.
  intros [Hin | Hin].
  - destruct (post_message_responses groq req w)
      as (r' & Hr & [-> | [-> | (v & Hv & ->)]]);
      rewrite Hr in Hin; destruct Hin as [<- | []];
      (split; [intros Hs; try discriminate Hs | intros Hs; try reflexivity]).
    + exists v. split; [exact Hv|]. split; [|left; reflexivity].
      cbv [Chat.answer_text Chat.read res_body].
      replace (prop _ "analysis") with JUndefined by reflexivity.
      replace (prop _ "reply") with v by reflexivity.
      cbn. now rewrite or_truthy.
    + now contradict Hs.
  - destruct (post_analyze_responses groq req w)
      as (r' & Hr & [-> | [-> | (v & Hv & ->)]]);
      rewrite Hr in Hin; destruct Hin as [<- | []];
      (split; [intros Hs; try discriminate Hs | intros Hs; try reflexivity]).
    + exists v. split; [exact Hv|]. split; [|right; reflexivity].
      cbv [Chat.answer_text Chat.read res_body].
      replace (prop _ "analysis") with v by reflexivity.
      now rewrite Hv.
    + now contradict Hs.
Qed.

Lemma backend_errors_show_as_no_response_witness :
  Chat.answer_text (res_body chat_failure) = Returned (JString "No response").
Proof.
  destruct (backend_errors_show_as_no_response Sample.failing
              (Sample.text_request (JString "hello")) Sample.world
              chat_failure) as (_ & Herr).
  - left. left. reflexivity.
  - apply Herr. discriminate.
Defined.

(** ** The chat window as a transition system *)

Set Warnings "-clear-no-such-hyp".

(** Closing the cases of the invariant. *)
Ltac finish :=
  repeat split; auto; intros;
  first [ discriminate | tauto | congruence | set_solver | idtac ].

(** What every reachable state of the component satisfies. *)
Lemma reachable_invariant (b : Chat.Browser) :
  Chat.reachable b ->
  Chat.selectedImage (Chat.ui b) = Chat.imagePreview (Chat.ui b) /\
  Forall (fun m => toBoolean (Chat.msg_text m) = true)
    (Chat.messages (Chat.ui b)) /\
  ((Chat.loading (Chat.ui b) = false /\ Chat.in_flight b = []) \/
   (Chat.loading (Chat.ui b) = true /\
    exists created, Chat.in_flight b = [created])) /\
  (Chat.darkMode (Chat.ui b) = true <->
   Chat.localStorage (Chat.page b) !! "theme" = Some "dark") /\
  (Chat.darkMode (Chat.ui b) = true <->
   "dark" ∈ Chat.classList (Chat.page b)).
Proof.
  induction 1 as [storage | a b Hb (Himg & Htext & Hload & Hstore & Hclass)].
  - unfold Chat.load, Chat.loadTheme. cbn.
    destruct (storage !! "theme") as [saved|] eqn:E;
      [destruct (String.eqb_spec saved "dark") as [-> | Hne]|]; cbn;
      rewrite ?E; finish.
  - destruct a as [value | file | | | | | value | t | t outcome]; cbn.
    + finish.
    + destruct file as [result|]; cbn; finish.
    + finish.
    + finish.
    + finish.
    + destruct (Chat.darkMode (Chat.ui b)) eqn:Hd; cbn;
        rewrite ?lookup_insert_eq; finish.
    + finish.
    + destruct (Chat.blocked (Chat.ui b)) eqn:Hblocked; [finish|]. cbn.
      split; [exact Himg|]. split; [|split; [|tauto]].
      * apply Forall_app. split; [exact Htext|].
        apply Forall_singleton. now apply userMessage_truthy.
      * right. split; [reflexivity|].
        destruct Hload as [[_ ->] | [Hl _]]; [now eexists|].
        unfold Chat.blocked in Hblocked. rewrite Hl in Hblocked.
        now rewrite orb_true_r in Hblocked.
    + destruct (Chat.in_flight b) as [|created rest] eqn:Hin; [finish|].
      cbn.
      destruct (complete_message t created outcome (Chat.ui b))
        as (m & Hm & _ & Ht & Hl & _ & Hd & Hok & Herr).
      rewrite Hm, Hl, Hd. split; [|split; [|split; [|tauto]]].
      * destruct (snd (Chat.complete t created outcome (Chat.ui b))) eqn:Hs.
        -- destruct (Hok eq_refl) as [-> ->]. reflexivity.
        -- destruct Herr as (_ & -> & ->); [discriminate | exact Himg].
      * apply Forall_app. split; [exact Htext|]. now apply Forall_singleton.
      * left. split; [reflexivity|].
        destruct Hload as [[_ [=]] | [_ (c & [= _ ->])]]. reflexivity.
Qed.

(** X20.  In every state the chat window can reach, the two image cells
    hold the same value, and no message of the list has an empty text:
    what is shown for the user is the trimmed input or the image label,
    what is shown for the bot is the answer, ["No response"] or the
    apology. *)
Theorem messages_always_have_text (b : Chat.Browser) :
  Chat.reachable b ->
  Chat.selectedImage (Chat.ui b) = Chat.imagePreview (Chat.ui b) /\
  forall m, In m (Chat.messages (Chat.ui b)) ->
    toBoolean (Chat.msg_text m) = true /\ Chat.msg_text m <> JString "".
Proof.
  intros Hb. destruct (reachable_invariant b Hb) as (Himg & Htext & _).
  split; [exact Himg|]. intros m Hin.
  rewrite Forall_forall in Htext.
  assert (Hm : toBoolean (Chat.msg_text m) = true)
    by now apply Htext, list_elem_of_In.
  split; [exact Hm | now apply truthy_not_empty].
Qed.

Lemma messages_always_have_text_witness :
  let b := Chat.act (Chat.Submitted (Chat.mkTimes 1 1 2 2))
             (Chat.act (Chat.Typed " hello ") (Chat.load ∅)) in
  Chat.selectedImage (Chat.ui b) = Chat.imagePreview (Chat.ui b).
Proof.
  intros b.
  assert (Hb : Chat.reachable b)
    by (unfold b; do 2 apply Chat.reach_act; apply Chat.reach_load).
  exact (proj1 (messages_always_have_text b Hb)).
Defined.

(** X21.  The chat window never has two requests in flight: [loading] is
    on exactly while one [sendMessage] awaits the network, and while it is
    on a further submit changes nothing. *)
Theorem one_request_in_flight (b : Chat.Browser) :
  Chat.reachable b ->
  length (Chat.in_flight b) <= 1 /\
  (Chat.loading (Chat.ui b) = true <-> Chat.in_flight b <> []) /\
  (Chat.in_flight b <> [] ->
   forall t, Chat.act (Chat.Submitted t) b = b).
Proof.
  intros Hb.
  destruct (reachable_invariant b Hb)
    as (_ & _ & [[Hl Hin] | [Hl (c & Hin)]] & _); rewrite Hin.
  - repeat split; try (cbn; lia); congruence.
  - split; [cbn; lia|]. split; [split; [discriminate | now intros _]|].
    intros _ t. cbn. unfold Chat.blocked. rewrite Hl.
    now rewrite orb_true_r.
Qed.

Lemma one_request_in_flight_witness :
  let b := Chat.act (Chat.Submitted (Chat.mkTimes 1 1 2 2))
             (Chat.act (Chat.Typed " hello ") (Chat.load ∅)) in
  length (Chat.in_flight b) <= 1 /\
  Chat.act (Chat.Submitted (Chat.mkTimes 3 3 4 4))
    (Chat.act (Chat.Typed "again") b) =
  Chat.act (Chat.Typed "again") b.
Proof.
  intros b.
  assert (Hb : Chat.reachable b)
    by (unfold b; do 2 apply Chat.reach_act; apply Chat.reach_load).
  split.
  - apply (one_request_in_flight b Hb).
  - apply (one_request_in_flight (Chat.act (Chat.Typed "again") b)
             (Chat.reach_act _ _ Hb)).
    discriminate.
Defined.

(** X22.  The theme survives a reload: in every state the chat window can
    reach, the stored theme is ["dark"] exactly when dark mode is on, so
    loading the page again from the storage gives the same mode; the root
    element has the class [dark] exactly when dark mode is on. *)
Theorem theme_survives_reload (b : Chat.Browser) :
  Chat.reachable b ->
  Chat.darkMode (Chat.ui (Chat.load (Chat.localStorage (Chat.page b)))) =
    Chat.darkMode (Chat.ui b) /\
  (Chat.darkMode (Chat.ui b) = true <->
   "dark" ∈ Chat.classList (Chat.page b)).
Proof.
  intros Hb.
  destruct (reachable_invariant b Hb) as (_ & _ & _ & Hstore & Hclass).
  split; [|exact Hclass].
  unfold Chat.load, Chat.loadTheme. cbn.
  destruct (Chat.localStorage (Chat.page b) !! "theme") as [saved|] eqn:E.
  - destruct (String.eqb_spec saved "dark") as [-> | Hne]; cbn.
    + symmetry. now apply Hstore.
    + destruct (Chat.darkMode (Chat.ui b)); [|reflexivity].
      destruct Hstore as [Hs _]. specialize (Hs eq_refl). congruence.
  - destruct (Chat.darkMode (Chat.ui b)); [|reflexivity].
    destruct Hstore as [Hs _]. specialize (Hs eq_refl). discriminate.
Qed.

Lemma theme_survives_reload_witness :
  let b := Chat.act Chat.ThemeToggled (Chat.load ∅) in
  Chat.darkMode (Chat.ui (Chat.load (Chat.localStorage (Chat.page b)))) =
    Chat.darkMode (Chat.ui b).
Proof.
  intros b.
  assert (Hb : Chat.reachable b)
    by (unfold b; apply Chat.reach_act; apply Chat.reach_load).
  exact (proj1 (theme_survives_reload b Hb)).
Defined.

Lemma routes_touch_only_the_upload_witness :
  let w := mkWorld {[ "uploads/3f2a" := mkFile Sample.png true true;
                      "uploads/77c1" := mkFile [] true true ]}
             "2025-01-01T00:00:00.000Z" [] [] in
  files (serve (post_analyze (Sample.answering (JString "a pixel")))
           (Sample.vision_request (JString "describe")) w) !! "uploads/77c1" =
  files w !! "uploads/77c1".
Proof.
  intros w.
  apply (routes_touch_only_the_upload (Sample.answering (JString "a pixel"))
           (Sample.vision_request (JString "describe")) w).
  - reflexivity.
  - intros file [= <-]. discriminate.
Defined.
